(** * mqttconn: an MQTT client seen as a [net.PacketConn]

    A shallow embedding of [mqtt.go].  The adapter [MQTTConn] wraps a paho
    [mqtt.Client]; the client, its publish tokens, the clock and the Go
    scheduler are the environment.  They are modelled as follows.

    - The world holds the heap of message channels created by [make] and the
      log of the calls made on clients and on their tokens.
    - A method's result is an [outcome]: it returns, it blocks for ever, or it
      panics.
    - What the environment answers (the reading of [time.Now()], the token
      handed back by [Publish], the case a [select] takes when two are ready)
      is an argument of the method.
    - The world a method runs in is the one it observes when it acts;
      deliveries by other goroutines are steps of their own
      ([Subscribe_handler]) between the calls.

    [DialMQTT] is modelled from the point where [url.Parse] has answered:
    the parse, the random identifier, the client built from the options and
    its connect token are answers of the environment as well. *)

From Stdlib Require Import ZArith Lia Bool List.
From Stdlib.Strings Require Import Byte.
From stdpp Require Import base list strings relations.

Local Open Scope string_scope.
Local Open Scope list_scope.
Local Open Scope Z_scope.

(** ** Outcomes and the world-passing monad *)

Inductive outcome (A : Type) : Type :=
| Ret (a : A)
| Block
| Panic.
Arguments Ret {A} a.
Arguments Block {A}.
Arguments Panic {A}.

(** ** package time *)

Module time.

(** An instant is the number of nanoseconds since the zero instant
    (January 1, year 1, 00:00:00 UTC); a duration is an int64 number of
    nanoseconds. *)
Definition Time := Z.
Definition Duration := Z.

Definition minDuration : Duration := - 2 ^ 63.
Definition maxDuration : Duration := 2 ^ 63 - 1.

Definition IsZero (t : Time) : bool := t =? 0.

(** [t.Sub(u)] saturates at the ends of the int64 range. *)
Definition Sub (t u : Time) : Duration :=
  let d := t - u in
  if d <? minDuration then minDuration
  else if maxDuration <? d then maxDuration
  else d.

End time.

(** ** errors *)

(** [errors_New] is [errors.New] of pkg/errors, [mqttError] the struct of
    that name, [tokenError] an error reported by the client library through
    [token.Error()]. *)
Inductive error : Type :=
| errors_New (message : string)
| mqttError (isTimeout : bool) (err : error)
| tokenError (message : string).

(** [Timeout] is a method of [*mqttError] only: for any other error the
    assertion to an interface with [Timeout() bool] fails, which reads as
    "not a timeout". *)
Definition Timeout (e : error) : bool :=
  match e with
  | mqttError isTimeout _ => isTimeout
  | _ => false
  end.

Fixpoint Error (e : error) : string :=
  match e with
  | errors_New message => message
  | mqttError _ err => Error err
  | tokenError message => message
  end.

(** ** net.Addr and TopicAddr *)

Class net_Addr (A : Type) : Type := {
  Network : A -> string;
  String : A -> string
}.

(** [type TopicAddr string] *)
Record TopicAddr : Type := mkTopicAddr { topicName : string }.

#[global] Instance TopicAddr_Addr : net_Addr TopicAddr := {|
  Network := fun _ => "mqttTopic";
  String := fun addr => topicName addr
|}.

(** ** package mqtt (paho): messages, tokens, the calls a client receives *)

Module mqtt.

Record Message : Type := mkMessage {
  Topic : string;
  Payload : list byte
}.

(** A token as [WriteTo] observes it: whether [Wait()] ever returns, what
    [WaitTimeout(d)] answers, and what [Error()] answers when it is asked
    after the wait. *)
Record Token : Type := mkToken {
  completes : bool;
  completesWithin : time.Duration -> bool;
  errorAfterWait : option error
}.

(** Calls logged in the world.  A subscription records the channel its
    handler sends into ([None] for a nil channel). *)
Inductive Call : Type :=
| Publish (topic : string) (qos : Z) (retained : bool) (payload : list byte)
| Subscribe (topic : string) (qos : Z) (handlerChan : option nat)
| Disconnect (quiesce : Z)
| Wait
| WaitTimeout (d : time.Duration).

End mqtt.

(** ** Channels of messages *)

Record Chan : Type := mkChan {
  chanBuf : list mqtt.Message;
  chanCap : nat;
  chanClosed : bool
}.

Record World : Type := mkWorld {
  chans : list Chan;
  calls : list (nat * mqtt.Call)
}.

Definition M (A : Type) : Type := World -> outcome (A * World).

Definition ret {A} (a : A) : M A := fun w => Ret (a, w).

Definition bind {A B} (m : M A) (k : A -> M B) : M B :=
  fun w =>
    match m w with
    | Ret (a, w') => k a w'
    | Block => Block
    | Panic => Panic
    end.

Definition block {A} : M A := fun _ => Block.
Definition panic {A} : M A := fun _ => Panic.

Notation "x <- m ;; k" := (bind m (fun x => k))
  (at level 100, m at next level, right associativity).
Notation "m ;;; k" := (bind m (fun _ => k))
  (at level 100, right associativity).

Definition set_chans (f : list Chan -> list Chan) (w : World) : World :=
  {| chans := f (chans w); calls := calls w |}.

Definition add_call (c : nat) (call : mqtt.Call) (w : World) : World :=
  {| chans := chans w; calls := calls w ++ [(c, call)] |}.

(** [make(chan mqtt.Message, n)] *)
Definition make_chan (n : nat) : M (option nat) :=
  fun w => Ret (Some (length (chans w)),
                set_chans (fun cs => cs ++ [mkChan [] n false]) w).

(** The channel a reference denotes; a nil reference denotes none. *)
Definition chan_at (w : World) (ch : option nat) : option Chan :=
  match ch with
  | Some r => chans w !! r
  | None => None
  end.

(** [ch <- msg]: blocks on a nil or full channel, panics on a closed one. *)
Definition chan_send (ch : option nat) (msg : mqtt.Message) : M unit :=
  fun w =>
    match ch, chan_at w ch with
    | Some r, Some c =>
        if chanClosed c then Panic
        else if (length (chanBuf c) <? chanCap c)%nat
        then Ret (tt, set_chans
                        <[r := mkChan (chanBuf c ++ [msg]) (chanCap c) false]> w)
        else Block
    | _, _ => Block
    end.

(** [close(ch)]: panics on a nil or closed channel. *)
Definition chan_close (ch : option nat) : M unit :=
  fun w =>
    match ch, chan_at w ch with
    | Some r, Some c =>
        if chanClosed c then Panic
        else Ret (tt, set_chans <[r := mkChan (chanBuf c) (chanCap c) true]> w)
    | _, _ => Panic
    end.

(** A receive is ready when the buffer holds a message or the channel is
    closed; a nil channel is never ready. *)
Definition recv_ready (w : World) (ch : option nat) : bool :=
  match chan_at w ch with
  | Some c => negb (Nat.eqb (length (chanBuf c)) 0) || chanClosed c
  | None => false
  end.

(** [<-ch] on a ready channel: the oldest message, or the zero value (a nil
    [mqtt.Message]) when the channel is closed and drained. *)
Definition chan_recv (ch : option nat) : M (option mqtt.Message) :=
  fun w =>
    match ch, chan_at w ch with
    | Some r, Some c =>
        match chanBuf c with
        | msg :: rest =>
            Ret (Some msg,
                 set_chans <[r := mkChan rest (chanCap c) (chanClosed c)]> w)
        | [] => if chanClosed c then Ret (None, w) else Block
        end
    | _, _ => Block
    end.

(** The timeout channel of [ReadFrom]: [make(chan time.Time)], on which nobody
    sends, or [time.After(d)]. *)
Inductive timer : Type :=
| never
| after (d : time.Duration).

Definition timer_fires (t : timer) : bool :=
  match t with
  | never => false
  | after _ => true
  end.

(** The case a [select] takes when both are ready is the scheduler's. *)
Inductive select_case : Type :=
| recvCase
| timeoutCase.

Inductive selected : Type :=
| received (msg : option mqtt.Message)
| timedOut.

(** [select { case msg := <-ch: ... case <-timeout: ... }] *)
Definition select_recv (ch : option nat) (timeout : timer)
    (pick : select_case) : M selected :=
  fun w =>
    match recv_ready w ch, timer_fires timeout with
    | true, true =>
        match pick with
        | recvCase => bind (chan_recv ch) (fun msg => ret (received msg)) w
        | timeoutCase => Ret (timedOut, w)
        end
    | true, false => bind (chan_recv ch) (fun msg => ret (received msg)) w
    | false, true => Ret (timedOut, w)
    | false, false => Block
    end.

(** ** Calls on the client and on tokens *)

(** A call on a nil client interface panics. *)
Definition client_call (client : option nat) (call : mqtt.Call) : M unit :=
  fun w =>
    match client with
    | Some c => Ret (tt, add_call c call w)
    | None => Panic
    end.

Definition token_call (client : option nat) (call : mqtt.Call)
    (returns : bool) : M unit :=
  fun w =>
    match client with
    | Some c => if returns then Ret (tt, add_call c call w) else Block
    | None => Panic
    end.

(** [byte(x)] for an [int] x *)
Definition byte_of_int (x : Z) : Z := x mod 256.

(** [copy(dst, src)]: the buffer after the copy and the count copied. *)
Definition copy (dst src : list byte) : list byte * Z :=
  let n := Nat.min (length dst) (length src) in
  (take n src ++ drop n dst, Z.of_nat n).

(** [len(b)] *)
Definition len (b : list byte) : Z := Z.of_nat (length b).

(** [client.Publish(topic, qos, retained, payload)] hands back the token the
    environment answers with. *)
Definition Client_Publish (client : option nat) (topic : string) (qos : Z)
    (retained : bool) (payload : list byte) (answer : mqtt.Token)
    : M mqtt.Token :=
  client_call client (mqtt.Publish topic qos retained payload) ;;;
  ret answer.

(** [token.Wait()] returns once the flow completes, if it ever does. *)
Definition Token_Wait (client : option nat) (token : mqtt.Token) : M bool :=
  token_call client mqtt.Wait (mqtt.completes token) ;;;
  ret true.

(** [token.WaitTimeout(d)] returns after [d] at the latest. *)
Definition Token_WaitTimeout (client : option nat) (token : mqtt.Token)
    (d : time.Duration) : M bool :=
  token_call client (mqtt.WaitTimeout d) true ;;;
  ret (mqtt.completesWithin token d).

Definition Token_Error (token : mqtt.Token) : option error :=
  mqtt.errorAfterWait token.

(** ** MQTTConn *)

Record MQTTConn : Type := mkMQTTConn {
  Client : option nat;
  defaultTopicSet : bool;
  defaultTopic : string;
  defaultQoS : Z;
  readDeadline : time.Time;
  writeDeadline : time.Time;
  readChan : option nat
}.

(** The subscription handler: [conn.readChan <- msg]. *)
Definition Subscribe_handler (conn : MQTTConn) (msg : mqtt.Message) : M unit :=
  chan_send (readChan conn) msg.

Definition Subscribe (conn : MQTTConn) (topic : string) (qos : Z)
    : M (option error) :=
  client_call (Client conn)
    (mqtt.Subscribe topic (byte_of_int qos) (readChan conn)) ;;;
  ret None.

Definition SetDefaultTopic (conn : MQTTConn) (topic : string) : MQTTConn :=
  {| Client := Client conn;
     defaultTopicSet := true;
     defaultTopic := topic;
     defaultQoS := defaultQoS conn;
     readDeadline := readDeadline conn;
     writeDeadline := writeDeadline conn;
     readChan := readChan conn |}.

Definition SetDefaultQoS (conn : MQTTConn) (qos : Z) : MQTTConn :=
  {| Client := Client conn;
     defaultTopicSet := defaultTopicSet conn;
     defaultTopic := defaultTopic conn;
     defaultQoS := qos;
     readDeadline := readDeadline conn;
     writeDeadline := writeDeadline conn;
     readChan := readChan conn |}.

Definition CreateMQTTConn (mqttClient : option nat)
    : M (MQTTConn * option error) :=
  readChan <- make_chan 2 ;;
  ret ({| Client := mqttClient;
          defaultTopicSet := false;
          defaultTopic := "";
          defaultQoS := 0;
          readDeadline := 0;
          writeDeadline := 0;
          readChan := readChan |}, None).

Definition WriteTo {A : Type} `{net_Addr A} (conn : MQTTConn) (b : list byte)
    (addr : A) (now : time.Time) (answer : mqtt.Token)
    : M (Z * option error) :=
  if negb (String.eqb (Network addr) (Network (mkTopicAddr ""))) then
    ret (0, Some (errors_New "unexpected net.Addr.Network() value"))
  else
    token <- Client_Publish (Client conn) (String addr)
               (byte_of_int (defaultQoS conn)) false b answer ;;
    let finish : M (Z * option error) :=
      match Token_Error token with
      | Some err => ret (0, Some err)
      | None => ret (len b, None)
      end in
    if time.IsZero (writeDeadline conn) then
      Token_Wait (Client conn) token ;;;
      finish
    else
      let waitTime := time.Sub (writeDeadline conn) now in
      if waitTime <=? 0 then
        ret (0, Some (mqttError true (errors_New "publish timed out")))
      else
        Token_WaitTimeout (Client conn) token waitTime ;;;
        finish.

Definition Write (conn : MQTTConn) (p : list byte) (now : time.Time)
    (answer : mqtt.Token) : M (Z * option error) :=
  WriteTo conn p (mkTopicAddr (defaultTopic conn)) now answer.

(** [ReadFrom] returns the buffer as the call leaves it, then [n], [addr]
    and [err]; a nil [net.Addr] is [None]. *)
Definition ReadFrom (conn : MQTTConn) (p : list byte) (now : time.Time)
    (pick : select_case)
    : M (list byte * Z * option TopicAddr * option error) :=
  let wait (timeout : timer)
      : M (list byte * Z * option TopicAddr * option error) :=
    sel <- select_recv (readChan conn) timeout pick ;;
    match sel with
    | received (Some msg) =>
        let (p', copiedCount) := copy p (mqtt.Payload msg) in
        ret (p', copiedCount, Some (mkTopicAddr (mqtt.Topic msg)), None)
    | received None => panic
    | timedOut =>
        ret (p, 0, None, Some (mqttError true (errors_New "read timed out")))
    end in
  if time.IsZero (readDeadline conn) then
    wait never
  else
    let waitTime := time.Sub (readDeadline conn) now in
    if waitTime <=? 0 then
      ret (p, 0, None, Some (mqttError true (errors_New "read timed out")))
    else
      wait (after waitTime).

Definition Read (conn : MQTTConn) (p : list byte) (now : time.Time)
    (pick : select_case) : M (list byte * Z * option error) :=
  r <- ReadFrom conn p now pick ;;
  match r with
  | (p', n, _, err) => ret (p', n, err)
  end.

Definition SetDeadline (conn : MQTTConn) (t : time.Time)
    : MQTTConn * option error :=
  ({| Client := Client conn;
      defaultTopicSet := defaultTopicSet conn;
      defaultTopic := defaultTopic conn;
      defaultQoS := defaultQoS conn;
      readDeadline := t;
      writeDeadline := t;
      readChan := readChan conn |}, None).

Definition SetReadDeadline (conn : MQTTConn) (t : time.Time)
    : MQTTConn * option error :=
  ({| Client := Client conn;
      defaultTopicSet := defaultTopicSet conn;
      defaultTopic := defaultTopic conn;
      defaultQoS := defaultQoS conn;
      readDeadline := t;
      writeDeadline := writeDeadline conn;
      readChan := readChan conn |}, None).

Definition SetWriteDeadline (conn : MQTTConn) (t : time.Time)
    : MQTTConn * option error :=
  ({| Client := Client conn;
      defaultTopicSet := defaultTopicSet conn;
      defaultTopic := defaultTopic conn;
      defaultQoS := defaultQoS conn;
      readDeadline := readDeadline conn;
      writeDeadline := t;
      readChan := readChan conn |}, None).

Definition LocalAddr (conn : MQTTConn) : TopicAddr := mkTopicAddr "".

Definition RemoteAddr (conn : MQTTConn) : TopicAddr :=
  mkTopicAddr (defaultTopic conn).

Definition Close (conn : MQTTConn) : M (option error) :=
  chan_close (readChan conn) ;;;
  client_call (Client conn) (mqtt.Disconnect 100) ;;;
  ret None.

(** ** Data used in the examples *)

Definition bytes (s : string) : list byte := String.list_byte_of_string s.

(** Another implementation of [net.Addr], such as [*net.UDPAddr]. *)
Record otherAddr : Type := mkOtherAddr {
  otherNetwork : string;
  otherString : string
}.

#[global] Instance otherAddr_Addr : net_Addr otherAddr := {|
  Network := otherNetwork;
  String := otherString
|}.

(** A world with one channel holding an 8-byte message, and no call yet. *)
Definition ex_world : World :=
  mkWorld [mkChan [mqtt.mkMessage "sensors/temp" (bytes "21.5 C  ")] 2 false] [].

(** An adapter on client 7 reading from channel 0. *)
Definition ex_conn (rd wd : time.Time) : MQTTConn :=
  {| Client := Some 7%nat;
     defaultTopicSet := true;
     defaultTopic := "sensors/temp";
     defaultQoS := 1;
     readDeadline := rd;
     writeDeadline := wd;
     readChan := Some 0%nat |}.

(** A publish that completes without error, and one that never completes. *)
Definition ex_token_done : mqtt.Token :=
  mqtt.mkToken true (fun _ => true) None.
Definition ex_token_pending : mqtt.Token :=
  mqtt.mkToken false (fun _ => false) None.

(** The adapter state apart from the two deadlines. *)
Definition same_but_deadlines (conn conn' : MQTTConn) : Prop :=
  Client conn' = Client conn /\
  defaultTopicSet conn' = defaultTopicSet conn /\
  defaultTopic conn' = defaultTopic conn /\
  defaultQoS conn' = defaultQoS conn /\
  readChan conn' = readChan conn.

(** ** DialMQTT *)

Module url.

(** What [url.Parse] hands back, as far as [DialMQTT] reads it.  [Host] is
    the field of that name, as parsed; [Port] is the value of the method
    [Port()]; [Password] is [None] when the second result of [Password()] is
    false. *)
Record Userinfo : Type := mkUserinfo {
  Username : string;
  Password : option string
}.

Record URL : Type := mkURL {
  Scheme : string;
  Host : string;
  Port : string;
  User : option Userinfo;
  Path : string
}.

End url.

(** The setters called on [mqtt.NewClientOptions()], in order. *)
Inductive ClientOption : Type :=
| AddBroker (server : string)
| SetClientID (id : string)
| SetUsername (u : string)
| SetPassword (p : string).

(** [strings.TrimPrefix(s, prefix)] *)
Definition TrimPrefix (s prefix : string) : string :=
  if String.prefix prefix s
  then String.substring (String.length prefix)
         (String.length s - String.length prefix) s
  else s.

(** Lines 35 to 50: the broker URI. *)
Definition DialMQTT_mqttURI (parsedURL : url.URL) : string :=
  let mqttProtocol := "tcp" in
  let port := url.Port parsedURL in
  let portAppend := "" in
  let portAppend :=
    if negb (String.eqb port "") then String.append ":" port
    else portAppend in
  let protocol_port :=
    if String.eqb (url.Scheme parsedURL) "mqtt" then
      ("tcp",
       if String.eqb (url.Port parsedURL) "" then ":1883" else portAppend)
    else if String.eqb (url.Scheme parsedURL) "mqtts" then
      ("ssl", portAppend)
    else (mqttProtocol, portAppend) in
  String.append (fst protocol_port)
    (String.append "://"
       (String.append (url.Host parsedURL) (snd protocol_port))).

(** Lines 54 to 67: the client options. *)
Definition DialMQTT_opts (parsedURL : url.URL) (id : string)
    : list ClientOption :=
  [AddBroker (DialMQTT_mqttURI parsedURL); SetClientID id] ++
  match url.User parsedURL with
  | Some user =>
      SetUsername (url.Username user) ::
      match url.Password user with
      | Some password => [SetPassword password]
      | None => []
      end
  | None => []
  end.

(** [DialMQTT] after [url.Parse(uri)], whose result is [parsed].  The
    environment also answers [uuid.NewRandom()] with [id] (already
    rendered by [String()]), [mqtt.NewClient(opts)] with the handle
    [NewClient opts], and [client.Connect()] with the token [connect]; the
    log has no entry for [Connect] itself. *)
Definition DialMQTT (parsed : url.URL + error) (id : string + error)
    (NewClient : list ClientOption -> nat) (connect : mqtt.Token)
    : M (option MQTTConn * option error) :=
  match parsed with
  | inr err => ret (None, Some err)
  | inl parsedURL =>
      match id with
      | inr err => ret (None, Some err)
      | inl id =>
          let client := Some (NewClient (DialMQTT_opts parsedURL id)) in
          let token := connect in
          Token_Wait client token ;;;
          match Token_Error token with
          | Some err => ret (None, Some err)
          | None =>
              r <- CreateMQTTConn client ;;
              match r with
              | (conn, None) =>
                  if negb (String.eqb (url.Path parsedURL) "") then
                    let defaultTopic := TrimPrefix (url.Path parsedURL) "/" in
                    err <- Subscribe conn defaultTopic 0 ;;
                    ret (Some (SetDefaultTopic conn defaultTopic), err)
                  else ret (Some conn, None)
              | (conn, Some err) => ret (Some conn, Some err)
              end
          end
      end
  end.

(** ** The zero adapter and the steps of a run *)

(** [&MQTTConn{}], as the test builds it: nil client, nil channel. *)
Definition zero_MQTTConn : MQTTConn :=
  {| Client := None;
     defaultTopicSet := false;
     defaultTopic := "";
     defaultQoS := 0;
     readDeadline := 0;
     writeDeadline := 0;
     readChan := None |}.

(** One returning call of an exported function or of a subscription handler,
    on any adapter value and with any answer of the environment. *)
Inductive step : World -> World -> Prop :=
| step_DialMQTT parsed id NewClient connect r w w' :
    DialMQTT parsed id NewClient connect w = Ret (r, w') -> step w w'
| step_CreateMQTTConn mqttClient r w w' :
    CreateMQTTConn mqttClient w = Ret (r, w') -> step w w'
| step_Subscribe conn topic qos r w w' :
    Subscribe conn topic qos w = Ret (r, w') -> step w w'
| step_handler conn msg r w w' :
    Subscribe_handler conn msg w = Ret (r, w') -> step w w'
| step_WriteTo (A : Type) (HA : net_Addr A) conn b (addr : A) now answer
    r w w' :
    WriteTo conn b addr now answer w = Ret (r, w') -> step w w'
| step_Write conn p now answer r w w' :
    Write conn p now answer w = Ret (r, w') -> step w w'
| step_ReadFrom conn p now pick r w w' :
    ReadFrom conn p now pick w = Ret (r, w') -> step w w'
| step_Read conn p now pick r w w' :
    Read conn p now pick w = Ret (r, w') -> step w w'
| step_Close conn r w w' :
    Close conn w = Ret (r, w') -> step w w'.

(** The worlds a program that starts with no channel and no call can reach. *)
Definition reachable (w : World) : Prop := rtc step (mkWorld [] []) w.

(** Every channel has capacity 2 and holds at most 2 messages. *)
Definition queues_bounded (w : World) : Prop :=
  Forall (fun c => chanCap c = 2%nat /\ (length (chanBuf c) <= 2)%nat)
    (chans w).

(** Channels are kept, and a closed channel stays closed. *)
Definition chans_extend (w w' : World) : Prop :=
  (length (chans w) <= length (chans w'))%nat /\
  forall (r : nat) (c : Chan),
    chans w !! r = Some c ->
    exists c', chans w' !! r = Some c' /\
               chanCap c' = chanCap c /\
               (chanClosed c = true -> chanClosed c' = true).

(** The calls are kept in order; new ones come after. *)
Definition calls_extend (w w' : World) : Prop :=
  exists more, calls w' = calls w ++ more.

(** What every returning call keeps of the world. *)
Definition world_extends (w w' : World) : Prop :=
  chans_extend w w' /\ calls_extend w w' /\
  (queues_bounded w -> queues_bounded w').

(** [TestBasic] without the broker: dial, write, have the handler deliver
    what the broker echoes on the default topic, read. *)
Definition TestBasic (parsedURL : url.URL) (id : string)
    (NewClient : list ClientOption -> nat) (connect answer : mqtt.Token)
    (expectedRead readBuf : list byte) (now1 now2 : time.Time)
    (pick : select_case)
    : M (list byte * Z * option TopicAddr * option error) :=
  r <- DialMQTT (inl parsedURL) (inl id) NewClient connect ;;
  match r with
  | (Some conn, None) =>
      Write conn expectedRead now1 answer ;;;
      Subscribe_handler conn
        (mqtt.mkMessage (defaultTopic conn) expectedRead) ;;;
      ReadFrom conn readBuf now2 pick
  | (_, err) => ret (readBuf, 0, None, err)
  end.

(** An adapter on client 7 with no default topic, as [CreateMQTTConn] leaves
    it, reading from channel 0. *)
Definition ex_fresh_conn : MQTTConn :=
  {| Client := Some 7%nat;
     defaultTopicSet := false;
     defaultTopic := "";
     defaultQoS := 0;
     readDeadline := 0;
     writeDeadline := 0;
     readChan := Some 0%nat |}.

(** A world whose channel 0 is open and empty, and one where it is closed. *)
Definition ex_empty_world : World := mkWorld [mkChan [] 2 false] [].
Definition ex_closed_world : World := mkWorld [mkChan [] 2 true] [].

Definition ex_url : url.URL :=
  url.mkURL "mqtt" "broker.example.com" ""
    (Some (url.mkUserinfo "alice" (Some "secret"))) "/sensors/temp".

Definition ex_token_failed : mqtt.Token :=
  mqtt.mkToken true (fun _ => true) (Some (tokenError "connection refused")).

(** ** Lemmas on the clock, the monad and the channels *)

(** Case analysis on the scrutinee of a [match]. *)
Ltac break_match :=
  match goal with
  | |- context [match ?x with _ => _ end] => destruct x eqn:?
  | H : context [match ?x with _ => _ end] |- _ => destruct x eqn:?
  end.

Lemma Sub_nonpos (t u : time.Time) :
  (time.Sub t u <=? 0) = true <-> t <= u.
Proof.
  unfold time.Sub, time.minDuration, time.maxDuration.
  rewrite Z.leb_le.
  destruct (Z.ltb_spec (t - u) (- 2 ^ 63));
    [| destruct (Z.ltb_spec (2 ^ 63 - 1) (t - u))]; lia.
Qed.

Lemma Sub_elapsed (t u : time.Time) :
  t < u -> (time.Sub t u <=? 0) = true.
Proof. intros Hlt. apply Sub_nonpos. lia. Qed.

Lemma Sub_remaining (t u : time.Time) :
  u < t -> (time.Sub t u <=? 0) = false.
Proof.
  intros Hlt. destruct (time.Sub t u <=? 0) eqn:E; [| reflexivity].
  apply Sub_nonpos in E. lia.
Qed.

Lemma byte_of_int_small (x : Z) : 0 <= x < 256 -> byte_of_int x = x.
Proof. intros Hx. unfold byte_of_int. apply Z.mod_small. exact Hx. Qed.

Lemma Network_TopicAddr (addr : TopicAddr) : Network addr = "mqttTopic".
Proof. reflexivity. Qed.

Lemma family_check_passes {A : Type} `{net_Addr A} (addr : A) :
  Network addr = "mqttTopic" ->
  negb (String.eqb (Network addr) (Network (mkTopicAddr ""))) = false.
Proof. intros ->. reflexivity. Qed.

Lemma family_check_fails {A : Type} `{net_Addr A} (addr : A) :
  Network addr <> "mqttTopic" ->
  negb (String.eqb (Network addr) (Network (mkTopicAddr ""))) = true.
Proof.
  intros Hne. apply negb_true_iff. apply String.eqb_neq. exact Hne.
Qed.

Lemma recv_ready_head (w : World) (r : nat) (ch : Chan)
    (msg : mqtt.Message) (rest : list mqtt.Message) :
  chans w !! r = Some ch -> chanBuf ch = msg :: rest ->
  recv_ready w (Some r) = true.
Proof.
  intros Hch Hbuf. unfold recv_ready, chan_at. rewrite Hch, Hbuf. reflexivity.
Qed.

Lemma chan_recv_head (w : World) (r : nat) (ch : Chan)
    (msg : mqtt.Message) (rest : list mqtt.Message) :
  chans w !! r = Some ch -> chanBuf ch = msg :: rest ->
  chan_recv (Some r) w =
    Ret (Some msg,
         set_chans <[r := mkChan rest (chanCap ch) (chanClosed ch)]> w).
Proof.
  intros Hch Hbuf. unfold chan_recv, chan_at. rewrite Hch, Hbuf. reflexivity.
Qed.

(** A select whose receive case is ready and taken yields the head message. *)
Lemma select_recv_head (w : World) (r : nat) (ch : Chan)
    (msg : mqtt.Message) (rest : list mqtt.Message)
    (timeout : timer) (pick : select_case) :
  chans w !! r = Some ch -> chanBuf ch = msg :: rest ->
  timer_fires timeout = false \/ pick = recvCase ->
  select_recv (Some r) timeout pick w =
    Ret (received (Some msg),
         set_chans <[r := mkChan rest (chanCap ch) (chanClosed ch)]> w).
Proof.
  intros Hch Hbuf Hsel. unfold select_recv.
  rewrite (recv_ready_head w r ch msg rest Hch Hbuf).
  unfold bind. rewrite (chan_recv_head w r ch msg rest Hch Hbuf).
  destruct Hsel as [-> | ->]; [reflexivity |].
  destruct (timer_fires timeout); reflexivity.
Qed.

(** A select never changes the world when the timeout case wins. *)
Lemma select_recv_timedOut (ch : option nat) (timeout : timer)
    (pick : select_case) (w w' : World) :
  select_recv ch timeout pick w = Ret (timedOut, w') -> w' = w.
Proof.
  unfold select_recv, bind, ret.
  destruct (recv_ready w ch), (timer_fires timeout), pick;
    try destruct (chan_recv ch w) as [[? ?] | |];
    intros Heq; inversion Heq; reflexivity.
Qed.

(** [ReadFrom] when the receive case is the one taken. *)
Lemma ReadFrom_recv (conn : MQTTConn) (p : list byte) (now : time.Time)
    (pick : select_case) (w : World) (r : nat) (ch : Chan)
    (msg : mqtt.Message) (rest : list mqtt.Message) :
  readChan conn = Some r ->
  chans w !! r = Some ch ->
  chanBuf ch = msg :: rest ->
  time.IsZero (readDeadline conn) = true \/
    (now < readDeadline conn /\ pick = recvCase) ->
  ReadFrom conn p now pick w =
    Ret (fst (copy p (mqtt.Payload msg)), snd (copy p (mqtt.Payload msg)),
         Some (mkTopicAddr (mqtt.Topic msg)), None,
         set_chans <[r := mkChan rest (chanCap ch) (chanClosed ch)]> w).
Proof.
  intros Hr Hch Hbuf Hsel. unfold ReadFrom. rewrite Hr.
  destruct Hsel as [Hz | [Hlt Hpick]].
  - rewrite Hz. unfold bind.
    rewrite (select_recv_head w r ch msg rest never pick Hch Hbuf);
      [| left; reflexivity].
    destruct (copy p (mqtt.Payload msg)); reflexivity.
  - destruct (time.IsZero (readDeadline conn)).
    + unfold bind.
      rewrite (select_recv_head w r ch msg rest never pick Hch Hbuf);
        [| left; reflexivity].
      destruct (copy p (mqtt.Payload msg)); reflexivity.
    + rewrite (Sub_remaining _ _ Hlt). unfold bind.
      rewrite (select_recv_head w r ch msg rest _ pick Hch Hbuf);
        [| right; exact Hpick].
      destruct (copy p (mqtt.Payload msg)); reflexivity.
Qed.

(** [ReadFrom] when the deadline has passed on entry. *)
Lemma ReadFrom_elapsed (conn : MQTTConn) (p : list byte) (now : time.Time)
    (pick : select_case) (w : World) :
  time.IsZero (readDeadline conn) = false ->
  readDeadline conn < now ->
  ReadFrom conn p now pick w =
    Ret (p, 0, None, Some (mqttError true (errors_New "read timed out")), w).
Proof.
  intros Hset Hpast. unfold ReadFrom.
  rewrite Hset, (Sub_elapsed _ _ Hpast). reflexivity.
Qed.

(** [WriteTo] up to the publish: the call is logged on the client. *)
Lemma Client_Publish_logged (c : nat) (topic : string) (qos : Z)
    (retained : bool) (payload : list byte) (answer : mqtt.Token) (w : World) :
  Client_Publish (Some c) topic qos retained payload answer w =
    Ret (answer, add_call c (mqtt.Publish topic qos retained payload) w).
Proof. reflexivity. Qed.

(** [WriteTo] with a deadline that has not passed: the bounded wait is made,
    its answer is dropped, and only [token.Error()] decides the result. *)
Lemma WriteTo_bounded_wait {A : Type} `{net_Addr A} (conn : MQTTConn)
    (c : nat) (b : list byte) (addr : A) (now : time.Time)
    (answer : mqtt.Token) (w : World) :
  Client conn = Some c ->
  Network addr = "mqttTopic" ->
  time.IsZero (writeDeadline conn) = false ->
  now < writeDeadline conn ->
  WriteTo conn b addr now answer w =
    Ret (match mqtt.errorAfterWait answer with
         | Some err => (0, Some err)
         | None => (len b, None)
         end,
         add_call c (mqtt.WaitTimeout (time.Sub (writeDeadline conn) now))
           (add_call c
              (mqtt.Publish (String addr) (byte_of_int (defaultQoS conn))
                 false b) w)).
Proof.
  intros Hc Hfam Hset Hlt. unfold WriteTo.
  rewrite (family_check_passes addr Hfam), Hc. unfold bind at 1.
  rewrite Client_Publish_logged, Hset, (Sub_remaining _ _ Hlt).
  unfold Token_WaitTimeout, token_call, Token_Error, bind, ret.
  destruct (mqtt.errorAfterWait answer); reflexivity.
Qed.

(** ** The claims *)




(** C2 fails on the code.  The write deadline is 100 and the clock at 10, so
    90ns remain; the publish never completes, so [WaitTimeout] answers false
    and [Error()] answers nil.  [WriteTo] returns the payload's length and no
    error. *)
Theorem WriteTo_wait_expired_succeeds :
  time.IsZero (writeDeadline (ex_conn 0 100)) = false /\
  10 < writeDeadline (ex_conn 0 100) /\
  mqtt.completesWithin ex_token_pending
    (time.Sub (writeDeadline (ex_conn 0 100)) 10) = false /\
  mqtt.errorAfterWait ex_token_pending = None /\
  WriteTo (ex_conn 0 100) (bytes "21.5") (mkTopicAddr "other/topic") 10
      ex_token_pending ex_world =
    Ret (4, None,
         {| chans := chans ex_world;
            calls := [(7%nat, mqtt.Publish "other/topic" 1 false
                                (bytes "21.5"));
                      (7%nat, mqtt.WaitTimeout 90)] |}).
Proof.
  do 4 (split; [reflexivity |]).
  exact (WriteTo_bounded_wait (ex_conn 0 100) 7%nat (bytes "21.5")
           (mkTopicAddr "other/topic") 10 ex_token_pending ex_world
           eq_refl eq_refl eq_refl eq_refl).
Qed.

(** C3.  With a read deadline strictly in the past, [ReadFrom] fails at once
    with the timeout error; the buffer and the world, hence the inbound
    queue, are as before the call, and a message that was pending is the one
    the next read (here with the deadline lifted) returns. *)
Theorem ReadFrom_deadline_elapsed :
  forall (conn : MQTTConn) (p : list byte) (now : time.Time)
         (pick : select_case) (w : World),
    time.IsZero (readDeadline conn) = false ->
    readDeadline conn < now ->
    ReadFrom conn p now pick w =
      Ret (p, 0, None, Some (mqttError true (errors_New "read timed out")), w)
    /\ Timeout (mqttError true (errors_New "read timed out")) = true
    /\ forall (r : nat) (ch : Chan) (msg : mqtt.Message)
              (rest : list mqtt.Message) (p2 : list byte) (now2 : time.Time)
              (pick2 : select_case),
         readChan conn = Some r ->
         chans w !! r = Some ch ->
         chanBuf ch = msg :: rest ->
         (ReadFrom conn p now pick ;;;
          ReadFrom (fst (SetReadDeadline conn 0)) p2 now2 pick2) w =
           Ret (fst (copy p2 (mqtt.Payload msg)),
                snd (copy p2 (mqtt.Payload msg)),
                Some (mkTopicAddr (mqtt.Topic msg)), None,
                set_chans <[r := mkChan rest (chanCap ch) (chanClosed ch)]> w).
Proof.
  intros conn p now pick w Hset Hpast.
  split; [apply ReadFrom_elapsed; assumption |].
  split; [reflexivity |].
  intros r ch msg rest p2 now2 pick2 Hr Hch Hbuf.
  unfold bind at 1. rewrite (ReadFrom_elapsed conn p now pick w Hset Hpast).
  apply ReadFrom_recv; [exact Hr | exact Hch | exact Hbuf | left; reflexivity].
Qed.

Lemma ReadFrom_deadline_elapsed_witness :
  time.IsZero (readDeadline (ex_conn 5 0)) = false /\
  readDeadline (ex_conn 5 0) < 10 /\
  ReadFrom (ex_conn 5 0) (bytes "....") 10 recvCase ex_world =
    Ret (bytes "....", 0, None,
         Some (mqttError true (errors_New "read timed out")), ex_world).
Proof.
  do 2 (split; [reflexivity |]).
  apply (ReadFrom_deadline_elapsed (ex_conn 5 0) (bytes "....") 10 recvCase
           ex_world); reflexivity.
Defined.

(** C4.  With a default destination [D] configured, [Write] is [WriteTo] to
    [D] as a topic address: same result, same world. *)
Theorem Write_default_destination :
  forall (conn : MQTTConn) (D : string) (p : list byte) (now : time.Time)
         (answer : mqtt.Token) (w : World),
    defaultTopicSet conn = true ->
    defaultTopic conn = D ->
    Write conn p now answer w = WriteTo conn p (mkTopicAddr D) now answer w.
Proof.
  intros conn D p now answer w _ HD. unfold Write. rewrite HD. reflexivity.
Qed.

Lemma Write_default_destination_witness :
  defaultTopicSet (SetDefaultTopic (ex_conn 0 0) "other/topic") = true /\
  defaultTopic (SetDefaultTopic (ex_conn 0 0) "other/topic") = "other/topic" /\
  Write (SetDefaultTopic (ex_conn 0 0) "other/topic") (bytes "21.5") 10
      ex_token_done ex_world =
    WriteTo (SetDefaultTopic (ex_conn 0 0) "other/topic") (bytes "21.5")
      (mkTopicAddr "other/topic") 10 ex_token_done ex_world.
Proof.
  do 2 (split; [reflexivity |]).
  apply (Write_default_destination
           (SetDefaultTopic (ex_conn 0 0) "other/topic") "other/topic"
           (bytes "21.5") 10 ex_token_done ex_world); reflexivity.
Defined.

(** C5.  When [ReadFrom] takes the receive case on a queue whose oldest
    message is [msg], it copies the first [min (length p) (length payload)]
    bytes of the payload over the start of the buffer, returns that count,
    the message's topic as the address and no error, whatever the two
    lengths; the message leaves the queue. *)
Theorem ReadFrom_copies_min :
  forall (conn : MQTTConn) (p : list byte) (now : time.Time)
         (pick : select_case) (w : World) (r : nat) (ch : Chan)
         (msg : mqtt.Message) (rest : list mqtt.Message),
    readChan conn = Some r ->
    chans w !! r = Some ch ->
    chanBuf ch = msg :: rest ->
    time.IsZero (readDeadline conn) = true \/
      (now < readDeadline conn /\ pick = recvCase) ->
    let n := Nat.min (length p) (length (mqtt.Payload msg)) in
    ReadFrom conn p now pick w =
      Ret (take n (mqtt.Payload msg) ++ drop n p, Z.of_nat n,
           Some (mkTopicAddr (mqtt.Topic msg)), None,
           set_chans <[r := mkChan rest (chanCap ch) (chanClosed ch)]> w).
Proof.
  intros conn p now pick w r ch msg rest Hr Hch Hbuf Hsel n.
  rewrite (ReadFrom_recv conn p now pick w r ch msg rest Hr Hch Hbuf Hsel).
  reflexivity.
Qed.

Lemma ReadFrom_copies_min_witness :
  readChan (ex_conn 0 0) = Some 0%nat /\
  chans ex_world !! 0%nat =
    Some (mkChan [mqtt.mkMessage "sensors/temp" (bytes "21.5 C  ")] 2 false) /\
  ReadFrom (ex_conn 0 0) (bytes "....") 10 timeoutCase ex_world =
    Ret (bytes "21.5", 4, Some (mkTopicAddr "sensors/temp"), None,
         mkWorld [mkChan [] 2 false] []).
Proof.
  do 2 (split; [reflexivity |]).
  apply (ReadFrom_copies_min (ex_conn 0 0) (bytes "....") 10 timeoutCase
           ex_world 0%nat
           (mkChan [mqtt.mkMessage "sensors/temp" (bytes "21.5 C  ")] 2 false)
           (mqtt.mkMessage "sensors/temp" (bytes "21.5 C  ")) []);
    try reflexivity.
  left; reflexivity.
Defined.

(** C6.  For an address whose [Network()] is not ["mqttTopic"], [WriteTo]
    returns zero bytes and the address-type error, and leaves the world as it
    was: no call reaches the client. *)
Theorem WriteTo_wrong_family :
  forall (A : Type) (HA : net_Addr A) (conn : MQTTConn) (b : list byte)
         (addr : A) (now : time.Time) (answer : mqtt.Token) (w : World),
    Network addr <> "mqttTopic" ->
    WriteTo conn b addr now answer w =
      Ret (0, Some (errors_New "unexpected net.Addr.Network() value"), w).
Proof.
  intros A HA conn b addr now answer w Hne. unfold WriteTo.
  rewrite (family_check_fails addr Hne). reflexivity.
Qed.

Lemma WriteTo_wrong_family_witness :
  Network (mkOtherAddr "udp" "192.0.2.1:1883") <> "mqttTopic" /\
  WriteTo (ex_conn 0 0) (bytes "21.5") (mkOtherAddr "udp" "192.0.2.1:1883")
      10 ex_token_done ex_world =
    Ret (0, Some (errors_New "unexpected net.Addr.Network() value"), ex_world).
Proof.
  split; [discriminate |].
  apply (WriteTo_wrong_family otherAddr otherAddr_Addr (ex_conn 0 0)
           (bytes "21.5") (mkOtherAddr "udp" "192.0.2.1:1883") 10
           ex_token_done ex_world).
  discriminate.
Defined.

(** C7.  When [WriteTo] returns without error, the address was of the
    adapter's family, the count returned is the payload's length, and the
    call added to the client's log is one publish of the payload to the
    address's topic, at [byte(defaultQoS)] (which is [defaultQoS] itself for
    every level a byte can hold), not retained, followed by the wait on its
    token; the channels are untouched. *)
Theorem WriteTo_success :
  forall (A : Type) (HA : net_Addr A) (conn : MQTTConn) (b : list byte)
         (addr : A) (now : time.Time) (answer : mqtt.Token) (w w' : World)
         (n : Z),
    WriteTo conn b addr now answer w = Ret (n, None, w') ->
    Network addr = "mqttTopic" /\
    n = len b /\
    (0 <= defaultQoS conn < 256 ->
     byte_of_int (defaultQoS conn) = defaultQoS conn) /\
    chans w' = chans w /\
    exists (c : nat) (wait : mqtt.Call),
      Client conn = Some c /\
      (wait = mqtt.Wait \/
       wait = mqtt.WaitTimeout (time.Sub (writeDeadline conn) now)) /\
      calls w' =
        calls w ++
          [(c, mqtt.Publish (String addr) (byte_of_int (defaultQoS conn))
                 false b);
           (c, wait)].
Proof.
  intros A HA conn b addr now answer w w' n Hrun.
  unfold WriteTo in Hrun.
  destruct (negb (String.eqb (Network addr) (Network (mkTopicAddr ""))))
    eqn:Hfam; [discriminate Hrun |].
  apply negb_false_iff, String.eqb_eq in Hfam.
  split; [exact Hfam |].
  destruct (Client conn) as [c |] eqn:Hc; [| discriminate Hrun].
  unfold bind at 1 in Hrun. rewrite Client_Publish_logged in Hrun.
  unfold Token_Wait, Token_WaitTimeout, token_call, Token_Error, bind, ret
    in Hrun.
  assert (Hqos : 0 <= defaultQoS conn < 256 ->
                 byte_of_int (defaultQoS conn) = defaultQoS conn)
    by apply byte_of_int_small.
  repeat (break_match; simplify_eq);
    (split; [reflexivity |]); (split; [exact Hqos |]);
    (split; [reflexivity |]);
    exists c; eexists; (split; [reflexivity |]);
    (split; [| simpl; rewrite <- app_assoc; reflexivity]);
    auto.
Qed.

Lemma WriteTo_success_witness :
  WriteTo (ex_conn 0 0) (bytes "21.5") (mkTopicAddr "other/topic") 10
      ex_token_done ex_world =
    Ret (4, None,
         {| chans := chans ex_world;
            calls := [(7%nat, mqtt.Publish "other/topic" 1 false
                                (bytes "21.5"));
                      (7%nat, mqtt.Wait)] |}) /\
  4 = len (bytes "21.5") /\
  exists (c : nat) (wait : mqtt.Call),
    Client (ex_conn 0 0) = Some c /\
    (wait = mqtt.Wait \/
     wait = mqtt.WaitTimeout (time.Sub (writeDeadline (ex_conn 0 0)) 10)) /\
    [(7%nat, mqtt.Publish "other/topic" 1 false (bytes "21.5"));
     (7%nat, mqtt.Wait)] =
      calls ex_world ++
        [(c, mqtt.Publish (String (mkTopicAddr "other/topic"))
               (byte_of_int (defaultQoS (ex_conn 0 0))) false (bytes "21.5"));
         (c, wait)].
Proof.
  split; [reflexivity |].
  pose proof (WriteTo_success TopicAddr TopicAddr_Addr (ex_conn 0 0)
                (bytes "21.5") (mkTopicAddr "other/topic") 10 ex_token_done
                ex_world
                {| chans := chans ex_world;
                   calls := [(7%nat, mqtt.Publish "other/topic" 1 false
                                       (bytes "21.5"));
                             (7%nat, mqtt.Wait)] |}
                4 eq_refl) as (_ & Hn & _ & _ & Hlog).
  split; [exact Hn | exact Hlog].
Defined.

(** C8.  For every client, nil included, [CreateMQTTConn] returns an adapter
    and no error.  The world gains one channel, empty, open, of capacity 2,
    which is the adapter's queue; the channels that existed are as they were
    and no call is made on the client; the adapter has no default topic, QoS
    0 and no deadline. *)
Theorem CreateMQTTConn_fresh :
  forall (mqttClient : option nat) (w : World),
    exists (conn : MQTTConn) (w' : World),
      CreateMQTTConn mqttClient w = Ret (conn, None, w') /\
      Client conn = mqttClient /\
      chans w' = chans w ++ [mkChan [] 2 false] /\
      length (chans w') = S (length (chans w)) /\
      readChan conn = Some (length (chans w)) /\
      chan_at w' (readChan conn) = Some (mkChan [] 2 false) /\
      calls w' = calls w /\
      defaultTopicSet conn = false /\
      defaultTopic conn = "" /\
      defaultQoS conn = 0 /\
      time.IsZero (readDeadline conn) = true /\
      time.IsZero (writeDeadline conn) = true.
Proof.
  intros mqttClient w. eexists. eexists.
  split; [reflexivity |]. simpl.
  repeat split.
  - rewrite length_app. simpl. lia.
  - rewrite lookup_app_r by lia. rewrite Nat.sub_diag. reflexivity.
Qed.

(** C9.  [SetDeadline] sets both deadlines to [t]; [SetReadDeadline] sets the
    read deadline and keeps the write deadline; [SetWriteDeadline] sets the
    write deadline and keeps the read deadline; each keeps the rest of the
    adapter and returns no error. *)
Theorem deadline_setters :
  forall (conn : MQTTConn) (t : time.Time),
    (readDeadline (fst (SetDeadline conn t)) = t /\
     writeDeadline (fst (SetDeadline conn t)) = t /\
     same_but_deadlines conn (fst (SetDeadline conn t)) /\
     snd (SetDeadline conn t) = None) /\
    (readDeadline (fst (SetReadDeadline conn t)) = t /\
     writeDeadline (fst (SetReadDeadline conn t)) = writeDeadline conn /\
     same_but_deadlines conn (fst (SetReadDeadline conn t)) /\
     snd (SetReadDeadline conn t) = None) /\
    (writeDeadline (fst (SetWriteDeadline conn t)) = t /\
     readDeadline (fst (SetWriteDeadline conn t)) = readDeadline conn /\
     same_but_deadlines conn (fst (SetWriteDeadline conn t)) /\
     snd (SetWriteDeadline conn t) = None).
Proof.
  intros conn t. unfold same_but_deadlines. simpl. repeat split.
Qed.

(** C10.  Whenever [ReadFrom] returns a timeout error, on either path, the
    count is zero and the address is nil; the buffer and the world are also
    untouched. *)
Theorem ReadFrom_timeout_result :
  forall (conn : MQTTConn) (p p' : list byte) (now : time.Time)
         (pick : select_case) (w w' : World) (n : Z)
         (addr : option TopicAddr) (e : error),
    ReadFrom conn p now pick w = Ret (p', n, addr, Some e, w') ->
    Timeout e = true ->
    n = 0 /\ addr = None /\ p' = p /\ w' = w.
Proof.
  intros conn p p' now pick w w' n addr e Hrun _.
  unfold ReadFrom in Hrun.
  assert (Hwait : forall timeout,
    (sel <- select_recv (readChan conn) timeout pick ;;
     match sel with
     | received (Some msg) =>
         let (q, copiedCount) := copy p (mqtt.Payload msg) in
         ret (q, copiedCount, Some (mkTopicAddr (mqtt.Topic msg)), None)
     | received None => panic
     | timedOut =>
         ret (p, 0, None, Some (mqttError true (errors_New "read timed out")))
     end) w = Ret (p', n, addr, Some e, w') ->
    n = 0 /\ addr = None /\ p' = p /\ w' = w).
  { intros timeout Hsel. unfold bind at 1 in Hsel.
    destruct (select_recv (readChan conn) timeout pick w)
      as [[[[msg |] |] w1] | |] eqn:Hs; try discriminate Hsel.
    apply select_recv_timedOut in Hs. subst w1.
    inversion Hsel; subst. repeat split. }
  destruct (time.IsZero (readDeadline conn)); [exact (Hwait _ Hrun) |].
  destruct (time.Sub (readDeadline conn) now <=? 0); [| exact (Hwait _ Hrun)].
  inversion Hrun; subst. repeat split.
Qed.

Lemma ReadFrom_timeout_result_witness :
  ReadFrom (ex_conn 50 0) (bytes "....") 10 timeoutCase ex_world =
    Ret (bytes "....", 0, None,
         Some (mqttError true (errors_New "read timed out")), ex_world) /\
  (0 = 0 /\ @None TopicAddr = None /\ bytes "...." = bytes "...." /\
   ex_world = ex_world).
Proof.
  split; [reflexivity |].
  apply (ReadFrom_timeout_result (ex_conn 50 0) (bytes "....") (bytes "....")
           10 timeoutCase ex_world ex_world 0 None
           (mqttError true (errors_New "read timed out")));
    reflexivity.
Defined.

(** ** Lemmas on channels in the world *)

Lemma lookup_new_chan (cs : list Chan) (c : Chan) :
  (cs ++ [c]) !! length cs = Some c.
Proof. apply list_lookup_middle. reflexivity. Qed.

Lemma insert_new_chan (cs : list Chan) (c c' : Chan) :
  <[length cs := c']> (cs ++ [c]) = cs ++ [c'].
Proof.
  induction cs as [| x cs IH]; [reflexivity |].
  simpl. f_equal. exact IH.
Qed.

Lemma chan_send_room (w : World) (r : nat) (c : Chan) (msg : mqtt.Message) :
  chans w !! r = Some c ->
  chanClosed c = false ->
  (length (chanBuf c) < chanCap c)%nat ->
  chan_send (Some r) msg w =
    Ret (tt, set_chans <[r := mkChan (chanBuf c ++ [msg]) (chanCap c) false]> w).
Proof.
  intros Hc Hopen Hroom. unfold chan_send, chan_at. rewrite Hc, Hopen.
  apply Nat.ltb_lt in Hroom. rewrite Hroom. reflexivity.
Qed.

Lemma chan_send_full (w : World) (r : nat) (c : Chan) (msg : mqtt.Message) :
  chans w !! r = Some c ->
  chanClosed c = false ->
  (chanCap c <= length (chanBuf c))%nat ->
  chan_send (Some r) msg w = Block.
Proof.
  intros Hc Hopen Hfull. unfold chan_send, chan_at. rewrite Hc, Hopen.
  apply Nat.ltb_ge in Hfull. rewrite Hfull. reflexivity.
Qed.

Lemma chan_send_closed (w : World) (r : nat) (c : Chan) (msg : mqtt.Message) :
  chans w !! r = Some c ->
  chanClosed c = true ->
  chan_send (Some r) msg w = Panic.
Proof.
  intros Hc Hclosed. unfold chan_send, chan_at. rewrite Hc, Hclosed.
  reflexivity.
Qed.

(** What a returning [close] did. *)
Lemma chan_close_returns (ch : option nat) (w w' : World) (u : unit) :
  chan_close ch w = Ret (u, w') ->
  exists (r : nat) (c : Chan),
    ch = Some r /\ chans w !! r = Some c /\ chanClosed c = false /\
    w' = set_chans <[r := mkChan (chanBuf c) (chanCap c) true]> w.
Proof.
  unfold chan_close, chan_at. intros Hrun.
  destruct ch as [r |]; [| discriminate Hrun].
  destruct (chans w !! r) as [c |] eqn:Hc; [| discriminate Hrun].
  destruct (chanClosed c) eqn:Hopen; [discriminate Hrun |].
  inversion Hrun. exists r, c. repeat split; assumption || reflexivity.
Qed.

Lemma lookup_updated_chan (w : World) (r : nat) (c c' : Chan) :
  chans w !! r = Some c ->
  chans (set_chans <[r := c']> w) !! r = Some c'.
Proof.
  intros Hc. simpl. apply list_lookup_insert_eq.
  apply lookup_lt_Some in Hc. exact Hc.
Qed.

(** What a returning call on the client did. *)
Lemma client_call_returns (client : option nat) (call : mqtt.Call)
    (w w' : World) (u : unit) :
  client_call client call w = Ret (u, w') ->
  exists c : nat, client = Some c /\ w' = add_call c call w.
Proof.
  unfold client_call. intros Hrun.
  destruct client as [c |]; [| discriminate Hrun].
  inversion Hrun. exists c. split; reflexivity.
Qed.

(** What a returning [Close] did. *)
Lemma Close_returns (conn : MQTTConn) (w w' : World) (e : option error) :
  Close conn w = Ret (e, w') ->
  e = None /\
  exists (c r : nat) (ch : Chan),
    Client conn = Some c /\ readChan conn = Some r /\
    chans w !! r = Some ch /\ chanClosed ch = false /\
    w' = add_call c (mqtt.Disconnect 100)
           (set_chans <[r := mkChan (chanBuf ch) (chanCap ch) true]> w).
Proof.
  unfold Close. unfold bind at 1. intros Hrun.
  destruct (chan_close (readChan conn) w) as [[u w1] | |] eqn:Hclose;
    try discriminate Hrun.
  apply chan_close_returns in Hclose as (r & ch & Hr & Hch & Hopen & ->).
  unfold bind at 1 in Hrun.
  destruct (client_call (Client conn) (mqtt.Disconnect 100)
              (set_chans <[r := mkChan (chanBuf ch) (chanCap ch) true]> w))
    as [[u' w2] | |] eqn:Hcall; try discriminate Hrun.
  apply client_call_returns in Hcall as (c & Hc & ->).
  inversion Hrun. split; [reflexivity |].
  exists c, r, ch. repeat split; assumption.
Qed.

(** A select on a channel that is not ready and a timer that never fires
    blocks; with a timer that fires it times out. *)
Lemma select_recv_not_ready (ch : option nat) (timeout : timer)
    (pick : select_case) (w : World) :
  recv_ready w ch = false ->
  select_recv ch timeout pick w =
    if timer_fires timeout then Ret (timedOut, w) else Block.
Proof. intros Hnot. unfold select_recv. rewrite Hnot. reflexivity. Qed.


(** A receive on a closed and drained channel yields the nil message. *)
Lemma chan_recv_closed_empty (w : World) (r : nat) (c : Chan) :
  chans w !! r = Some c -> chanBuf c = [] -> chanClosed c = true ->
  recv_ready w (Some r) = true /\ chan_recv (Some r) w = Ret (None, w).
Proof.
  intros Hc Hbuf Hclosed. unfold recv_ready, chan_recv, chan_at.
  rewrite Hc, Hbuf, Hclosed. split; reflexivity.
Qed.

(** The handler and [ReadFrom] on the channel allocated last. *)
Lemma handler_on_last (conn : MQTTConn) (cs : list Chan)
    (l : list (nat * mqtt.Call)) (q : list mqtt.Message) (cap : nat)
    (msg : mqtt.Message) :
  readChan conn = Some (length cs) ->
  (length q < cap)%nat ->
  Subscribe_handler conn msg (mkWorld (cs ++ [mkChan q cap false]) l) =
    Ret (tt, mkWorld (cs ++ [mkChan (q ++ [msg]) cap false]) l).
Proof.
  intros Hr Hroom. unfold Subscribe_handler. rewrite Hr.
  rewrite (chan_send_room (mkWorld (cs ++ [mkChan q cap false]) l)
             (length cs) (mkChan q cap false) msg
             (lookup_new_chan cs _) eq_refl Hroom).
  unfold set_chans. simpl. rewrite insert_new_chan. reflexivity.
Qed.

Lemma ReadFrom_on_last (conn : MQTTConn) (cs : list Chan)
    (l : list (nat * mqtt.Call)) (msg : mqtt.Message)
    (q : list mqtt.Message) (cap : nat) (closed : bool) (p : list byte)
    (now : time.Time) (pick : select_case) :
  readChan conn = Some (length cs) ->
  time.IsZero (readDeadline conn) = true ->
  ReadFrom conn p now pick (mkWorld (cs ++ [mkChan (msg :: q) cap closed]) l) =
    Ret (fst (copy p (mqtt.Payload msg)), snd (copy p (mqtt.Payload msg)),
         Some (mkTopicAddr (mqtt.Topic msg)), None,
         mkWorld (cs ++ [mkChan q cap closed]) l).
Proof.
  intros Hr Hz.
  rewrite (ReadFrom_recv conn p now pick
             (mkWorld (cs ++ [mkChan (msg :: q) cap closed]) l) (length cs)
             (mkChan (msg :: q) cap closed) msg q Hr
             (lookup_new_chan cs _) eq_refl (or_introl Hz)).
  unfold set_chans. simpl. rewrite insert_new_chan. reflexivity.
Qed.

(** [CreateMQTTConn] in a world given by its parts. *)
Lemma CreateMQTTConn_last (mqttClient : option nat) (cs : list Chan)
    (l : list (nat * mqtt.Call)) :
  CreateMQTTConn mqttClient (mkWorld cs l) =
    Ret ({| Client := mqttClient;
            defaultTopicSet := false;
            defaultTopic := "";
            defaultQoS := 0;
            readDeadline := 0;
            writeDeadline := 0;
            readChan := Some (length cs) |}, None,
         mkWorld (cs ++ [mkChan [] 2 false]) l).
Proof. reflexivity. Qed.

(** ** Further properties: subscriptions, deliveries, Close *)

(** X1.  [Subscribe] never reports a failure: whenever it returns, it returns
    nil, the adapter holds a client, and the one thing done is a
    subscription on that client, at [byte(qos)], whose handler sends into the
    adapter's own queue.  No channel is touched. *)
Theorem Subscribe_returns_nil :
  forall (conn : MQTTConn) (topic : string) (qos : Z) (w w' : World)
         (e : option error),
    Subscribe conn topic qos w = Ret (e, w') ->
    e = None /\
    chans w' = chans w /\
    exists c : nat,
      Client conn = Some c /\
      calls w' =
        calls w ++ [(c, mqtt.Subscribe topic (qos mod 256) (readChan conn))].
Proof.
  intros conn topic qos w w' e Hrun. unfold Subscribe, bind in Hrun.
  destruct (client_call (Client conn)
              (mqtt.Subscribe topic (byte_of_int qos) (readChan conn)) w)
    as [[u w1] | |] eqn:Hcall; try discriminate Hrun.
  apply client_call_returns in Hcall as (c & Hc & ->).
  inversion Hrun; subst. split; [reflexivity |]. split; [reflexivity |].
  exists c. split; [exact Hc | reflexivity].
Qed.

Lemma Subscribe_returns_nil_witness :
  Subscribe ex_fresh_conn "sensors/temp" 257 ex_empty_world =
    Ret (None,
         mkWorld [mkChan [] 2 false]
           [(7%nat, mqtt.Subscribe "sensors/temp" 1 (Some 0%nat))]) /\
  @None error = None.
Proof.
  split; [reflexivity |].
  apply (Subscribe_returns_nil ex_fresh_conn "sensors/temp" 257 ex_empty_world
           (mkWorld [mkChan [] 2 false]
              [(7%nat, mqtt.Subscribe "sensors/temp" 1 (Some 0%nat))])
           None).
  reflexivity.
Defined.

(** X2.  Messages are read in the order the handler delivered them: on an
    adapter just created, two deliveries followed by two reads return the
    first message, then the second, each with its topic as the address, and
    leave the queue empty. *)
Theorem deliveries_read_in_order :
  forall (mqttClient : option nat) (w : World) (m1 m2 : mqtt.Message)
         (p1 p2 : list byte) (now1 now2 : time.Time)
         (pick1 pick2 : select_case),
    (r <- CreateMQTTConn mqttClient ;;
     Subscribe_handler (fst r) m1 ;;;
     Subscribe_handler (fst r) m2 ;;;
     a <- ReadFrom (fst r) p1 now1 pick1 ;;
     b <- ReadFrom (fst r) p2 now2 pick2 ;;
     ret (a, b)) w =
    Ret ((fst (copy p1 (mqtt.Payload m1)), snd (copy p1 (mqtt.Payload m1)),
          Some (mkTopicAddr (mqtt.Topic m1)), None,
          (fst (copy p2 (mqtt.Payload m2)), snd (copy p2 (mqtt.Payload m2)),
           Some (mkTopicAddr (mqtt.Topic m2)), None)),
         {| chans := chans w ++ [mkChan [] 2 false]; calls := calls w |}).
Proof.
  intros mqttClient [cs l] m1 m2 p1 p2 now1 now2 pick1 pick2.
  unfold bind at 1. rewrite CreateMQTTConn_last. cbn [fst].
  set (conn := mkMQTTConn mqttClient false "" 0 0 0 (Some (length cs))).
  unfold bind at 1.
  rewrite (handler_on_last conn cs l [] 2 m1 eq_refl) by (simpl; lia).
  change ([] ++ [m1]) with [m1].
  unfold bind at 1.
  rewrite (handler_on_last conn cs l [m1] 2 m2 eq_refl) by (simpl; lia).
  change ([m1] ++ [m2]) with [m1; m2].
  unfold bind at 1.
  rewrite (ReadFrom_on_last conn cs l m1 [m2] 2 false p1 now1 pick1
             eq_refl eq_refl).
  unfold bind at 1.
  rewrite (ReadFrom_on_last conn cs l m2 [] 2 false p2 now2 pick2
             eq_refl eq_refl).
  reflexivity.
Qed.

(** X3.  The queue holds two messages and no more: on an adapter just
    created, a third delivery with no read in between blocks. *)
Theorem third_delivery_blocks :
  forall (mqttClient : option nat) (w : World) (m1 m2 m3 : mqtt.Message),
    (r <- CreateMQTTConn mqttClient ;;
     Subscribe_handler (fst r) m1 ;;;
     Subscribe_handler (fst r) m2 ;;;
     Subscribe_handler (fst r) m3) w = Block.
Proof.
  intros mqttClient [cs l] m1 m2 m3.
  unfold bind at 1. rewrite CreateMQTTConn_last. cbn [fst].
  set (conn := mkMQTTConn mqttClient false "" 0 0 0 (Some (length cs))).
  unfold bind at 1.
  rewrite (handler_on_last conn cs l [] 2 m1 eq_refl) by (simpl; lia).
  change ([] ++ [m1]) with [m1].
  unfold bind at 1.
  rewrite (handler_on_last conn cs l [m1] 2 m2 eq_refl) by (simpl; lia).
  change ([m1] ++ [m2]) with [m1; m2].
  unfold Subscribe_handler. simpl.
  apply (chan_send_full (mkWorld (cs ++ [mkChan [m1; m2] 2 false]) l)
           (length cs) (mkChan [m1; m2] 2 false) m3
           (lookup_new_chan cs _) eq_refl).
  simpl. lia.
Qed.

(** X4.  A delivery after [Close] panics: the handler sends on the closed
    channel. *)
Theorem delivery_after_Close_panics :
  forall (conn : MQTTConn) (w w' : World) (e : option error)
         (msg : mqtt.Message),
    Close conn w = Ret (e, w') ->
    Subscribe_handler conn msg w' = Panic.
Proof.
  intros conn w w' e msg Hclose.
  apply Close_returns in Hclose
    as (_ & c & r & ch & _ & Hr & Hch & _ & ->).
  unfold Subscribe_handler. rewrite Hr.
  apply (chan_send_closed _ r (mkChan (chanBuf ch) (chanCap ch) true) msg);
    [| reflexivity].
  apply (lookup_updated_chan w r ch _ Hch).
Qed.

Lemma delivery_after_Close_panics_witness :
  Close ex_fresh_conn ex_empty_world =
    Ret (None,
         mkWorld [mkChan [] 2 true] [(7%nat, mqtt.Disconnect 100)]) /\
  Subscribe_handler ex_fresh_conn (mqtt.mkMessage "sensors/temp" (bytes "21.5"))
    (mkWorld [mkChan [] 2 true] [(7%nat, mqtt.Disconnect 100)]) = Panic.
Proof.
  split; [reflexivity |].
  apply (delivery_after_Close_panics ex_fresh_conn ex_empty_world
           (mkWorld [mkChan [] 2 true] [(7%nat, mqtt.Disconnect 100)])
           None (mqtt.mkMessage "sensors/temp" (bytes "21.5"))).
  reflexivity.
Defined.

(** X5.  [Close] is not idempotent: after a [Close] that returned, a second
    [Close] of the same adapter panics on the closed channel. *)
Theorem Close_twice_panics :
  forall (conn : MQTTConn) (w w' : World) (e : option error),
    Close conn w = Ret (e, w') ->
    Close conn w' = Panic.
Proof.
  intros conn w w' e Hclose.
  apply Close_returns in Hclose
    as (_ & c & r & ch & _ & Hr & Hch & _ & ->).
  unfold Close. unfold bind at 1. unfold chan_close, chan_at. rewrite Hr.
  change (chans (add_call c (mqtt.Disconnect 100)
                   (set_chans <[r := mkChan (chanBuf ch) (chanCap ch) true]> w)))
    with (chans (set_chans <[r := mkChan (chanBuf ch) (chanCap ch) true]> w)).
  rewrite (lookup_updated_chan w r ch _ Hch). reflexivity.
Qed.

Lemma Close_twice_panics_witness :
  Close ex_fresh_conn ex_empty_world =
    Ret (None,
         mkWorld [mkChan [] 2 true] [(7%nat, mqtt.Disconnect 100)]) /\
  Close ex_fresh_conn
    (mkWorld [mkChan [] 2 true] [(7%nat, mqtt.Disconnect 100)]) = Panic.
Proof.
  split; [reflexivity |].
  apply (Close_twice_panics ex_fresh_conn ex_empty_world
           (mkWorld [mkChan [] 2 true] [(7%nat, mqtt.Disconnect 100)]) None).
  reflexivity.
Defined.

(** X6.  [Close] never returns an error.  When it returns, the adapter had a
    client and an open queue; the queue is now closed with its pending
    messages and capacity kept, every other channel is as it was, and the
    one call made is [Disconnect(100)] on the adapter's client. *)
Theorem Close_effect :
  forall (conn : MQTTConn) (w w' : World) (e : option error),
    Close conn w = Ret (e, w') ->
    e = None /\
    exists (c r : nat) (ch : Chan),
      Client conn = Some c /\ readChan conn = Some r /\
      chans w !! r = Some ch /\ chanClosed ch = false /\
      chans w' !! r = Some (mkChan (chanBuf ch) (chanCap ch) true) /\
      (forall r' : nat, r' <> r -> chans w' !! r' = chans w !! r') /\
      length (chans w') = length (chans w) /\
      calls w' = calls w ++ [(c, mqtt.Disconnect 100)].
Proof.
  intros conn w w' e Hclose.
  apply Close_returns in Hclose
    as (He & c & r & ch & Hc & Hr & Hch & Hopen & ->).
  split; [exact He |]. exists c, r, ch.
  repeat (split; [assumption |]).
  split; [apply (lookup_updated_chan w r ch _ Hch) |].
  split; [| split; [| reflexivity]].
  - intros r' Hne. simpl. apply list_lookup_insert_ne. congruence.
  - simpl. apply length_insert.
Qed.

Lemma Close_effect_witness :
  Close (ex_conn 0 0) ex_world =
    Ret (None,
         mkWorld
           [mkChan [mqtt.mkMessage "sensors/temp" (bytes "21.5 C  ")] 2 true]
           [(7%nat, mqtt.Disconnect 100)]) /\
  @None error = None.
Proof.
  split; [reflexivity |].
  apply (Close_effect (ex_conn 0 0) ex_world
           (mkWorld
              [mkChan [mqtt.mkMessage "sensors/temp" (bytes "21.5 C  ")] 2
                 true]
              [(7%nat, mqtt.Disconnect 100)]) None).
  reflexivity.
Defined.

(** X7.  A message pending when the adapter is closed is not lost: a
    [ReadFrom] after [Close] that takes the receive case returns it. *)
Theorem ReadFrom_after_Close_pending :
  forall (conn : MQTTConn) (w w' : World) (e : option error) (r : nat)
         (ch : Chan) (msg : mqtt.Message) (rest : list mqtt.Message)
         (p : list byte) (now : time.Time) (pick : select_case),
    Close conn w = Ret (e, w') ->
    readChan conn = Some r ->
    chans w !! r = Some ch ->
    chanBuf ch = msg :: rest ->
    time.IsZero (readDeadline conn) = true \/
      (now < readDeadline conn /\ pick = recvCase) ->
    exists w'' : World,
      ReadFrom conn p now pick w' =
        Ret (fst (copy p (mqtt.Payload msg)), snd (copy p (mqtt.Payload msg)),
             Some (mkTopicAddr (mqtt.Topic msg)), None, w'') /\
      chans w'' !! r = Some (mkChan rest (chanCap ch) true).
Proof.
  intros conn w w' e r ch msg rest p now pick Hclose Hr Hch Hbuf Hsel.
  apply Close_returns in Hclose
    as (_ & c & r0 & ch0 & _ & Hr0 & Hch0 & _ & ->).
  assert (r0 = r) by congruence. subst r0.
  assert (ch0 = ch) by congruence. subst ch0.
  set (w1 := add_call c (mqtt.Disconnect 100)
               (set_chans <[r := mkChan (chanBuf ch) (chanCap ch) true]> w)).
  assert (Hch1 : chans w1 !! r = Some (mkChan (chanBuf ch) (chanCap ch) true))
    by apply (lookup_updated_chan w r ch _ Hch).
  eexists. split.
  - apply (ReadFrom_recv conn p now pick w1 r _ msg rest Hr Hch1 Hbuf Hsel).
  - simpl. apply list_lookup_insert_eq.
    rewrite length_insert. apply lookup_lt_Some in Hch. exact Hch.
Qed.

Lemma ReadFrom_after_Close_pending_witness :
  Close (ex_conn 0 0) ex_world =
    Ret (None,
         mkWorld
           [mkChan [mqtt.mkMessage "sensors/temp" (bytes "21.5 C  ")] 2 true]
           [(7%nat, mqtt.Disconnect 100)]) /\
  exists w'' : World,
    ReadFrom (ex_conn 0 0) (bytes "........") 10 timeoutCase
      (mkWorld
         [mkChan [mqtt.mkMessage "sensors/temp" (bytes "21.5 C  ")] 2 true]
         [(7%nat, mqtt.Disconnect 100)]) =
      Ret (bytes "21.5 C  ", 8, Some (mkTopicAddr "sensors/temp"), None, w'') /\
    chans w'' !! 0%nat = Some (mkChan [] 2 true).
Proof.
  split; [reflexivity |].
  apply (ReadFrom_after_Close_pending (ex_conn 0 0) ex_world _ None 0%nat
           (mkChan [mqtt.mkMessage "sensors/temp" (bytes "21.5 C  ")] 2 false)
           (mqtt.mkMessage "sensors/temp" (bytes "21.5 C  ")) []
           (bytes "........") 10 timeoutCase);
    try reflexivity.
  left; reflexivity.
Defined.

(** X8.  Once the adapter is closed and its queue drained, a [ReadFrom] that
    takes the receive case panics: the closed channel yields a nil message,
    whose payload is then asked for. *)
Theorem ReadFrom_after_Close_drained_panics :
  forall (conn : MQTTConn) (w w' : World) (e : option error) (r : nat)
         (ch : Chan) (p : list byte) (now : time.Time) (pick : select_case),
    Close conn w = Ret (e, w') ->
    readChan conn = Some r ->
    chans w !! r = Some ch ->
    chanBuf ch = [] ->
    time.IsZero (readDeadline conn) = true \/
      (now < readDeadline conn /\ pick = recvCase) ->
    ReadFrom conn p now pick w' = Panic.
Proof.
  intros conn w w' e r ch p now pick Hclose Hr Hch Hbuf Hsel.
  apply Close_returns in Hclose
    as (_ & c & r0 & ch0 & _ & Hr0 & Hch0 & _ & ->).
  assert (r0 = r) by congruence. subst r0.
  assert (ch0 = ch) by congruence. subst ch0.
  set (w1 := add_call c (mqtt.Disconnect 100)
               (set_chans <[r := mkChan (chanBuf ch) (chanCap ch) true]> w)).
  assert (Hch1 : chans w1 !! r = Some (mkChan (chanBuf ch) (chanCap ch) true))
    by apply (lookup_updated_chan w r ch _ Hch).
  destruct (chan_recv_closed_empty w1 r _ Hch1 Hbuf eq_refl)
    as [Hready Hrecv].
  assert (Hselect : forall timeout,
             timer_fires timeout = false \/ pick = recvCase ->
             select_recv (Some r) timeout pick w1 = Ret (received None, w1)).
  { intros timeout Hcase. unfold select_recv. rewrite Hready.
    unfold bind. rewrite Hrecv.
    destruct Hcase as [-> | ->]; [reflexivity |].
    destruct (timer_fires timeout); reflexivity. }
  unfold ReadFrom. rewrite Hr.
  destruct Hsel as [Hz | [Hlt Hpick]].
  - rewrite Hz. unfold bind. rewrite Hselect by (left; reflexivity).
    reflexivity.
  - destruct (time.IsZero (readDeadline conn)).
    + unfold bind. rewrite Hselect by (left; reflexivity). reflexivity.
    + rewrite (Sub_remaining _ _ Hlt). unfold bind.
      rewrite Hselect by (right; exact Hpick). reflexivity.
Qed.

Lemma ReadFrom_after_Close_drained_panics_witness :
  Close ex_fresh_conn ex_empty_world =
    Ret (None, mkWorld [mkChan [] 2 true] [(7%nat, mqtt.Disconnect 100)]) /\
  ReadFrom ex_fresh_conn (bytes "....") 10 recvCase
    (mkWorld [mkChan [] 2 true] [(7%nat, mqtt.Disconnect 100)]) = Panic.
Proof.
  split; [reflexivity |].
  apply (ReadFrom_after_Close_drained_panics ex_fresh_conn ex_empty_world _
           None 0%nat (mkChan [] 2 false) (bytes "....") 10 recvCase);
    try reflexivity.
  left; reflexivity.
Defined.

(** ** Lemmas on what a returning receive, select and [ReadFrom] did *)

Lemma chan_recv_returns (ch : option nat) (w w' : World)
    (got : option mqtt.Message) :
  chan_recv ch w = Ret (got, w') ->
  exists (r : nat) (c : Chan),
    ch = Some r /\ chans w !! r = Some c /\
    ((exists (msg : mqtt.Message) (rest : list mqtt.Message),
        got = Some msg /\ chanBuf c = msg :: rest /\
        w' = set_chans <[r := mkChan rest (chanCap c) (chanClosed c)]> w) \/
     (got = None /\ chanBuf c = [] /\ chanClosed c = true /\ w' = w)).
Proof.
  unfold chan_recv, chan_at. intros Hrun.
  destruct ch as [r |]; [| discriminate Hrun].
  destruct (chans w !! r) as [c |] eqn:Hc; [| discriminate Hrun].
  exists r, c. split; [reflexivity |]. split; [exact Hc |].
  destruct (chanBuf c) as [| msg rest] eqn:Hbuf.
  - destruct (chanClosed c) eqn:Hclosed; [| discriminate Hrun].
    inversion Hrun. right. repeat split.
  - inversion Hrun. left. exists msg, rest. repeat split.
Qed.

Lemma select_recv_returns (ch : option nat) (timeout : timer)
    (pick : select_case) (w w' : World) (sel : selected) :
  select_recv ch timeout pick w = Ret (sel, w') ->
  (sel = timedOut /\ w' = w /\ timer_fires timeout = true) \/
  (exists got : option mqtt.Message,
     sel = received got /\ chan_recv ch w = Ret (got, w')).
Proof.
  unfold select_recv, bind, ret.
  destruct (recv_ready w ch), (timer_fires timeout), pick;
    try discriminate;
    try (intros Heq; inversion Heq; left; repeat split; fail);
    (destruct (chan_recv ch w) as [[got w1] | |]; try discriminate;
     intros Heq; inversion Heq; right; exists got; split; reflexivity).
Qed.

(** A returning [ReadFrom] either timed out, with a deadline set and nothing
    changed, or took the oldest message of the adapter's queue. *)
Lemma ReadFrom_returns (conn : MQTTConn) (p p' : list byte) (now : time.Time)
    (pick : select_case) (w w' : World) (n : Z) (addr : option TopicAddr)
    (e : option error) :
  ReadFrom conn p now pick w = Ret (p', n, addr, e, w') ->
  (time.IsZero (readDeadline conn) = false /\
   p' = p /\ n = 0 /\ addr = None /\
   e = Some (mqttError true (errors_New "read timed out")) /\ w' = w) \/
  (exists (r : nat) (ch : Chan) (msg : mqtt.Message)
          (rest : list mqtt.Message),
     readChan conn = Some r /\ chans w !! r = Some ch /\
     chanBuf ch = msg :: rest /\
     p' = fst (copy p (mqtt.Payload msg)) /\
     n = snd (copy p (mqtt.Payload msg)) /\
     addr = Some (mkTopicAddr (mqtt.Topic msg)) /\ e = None /\
     w' = set_chans <[r := mkChan rest (chanCap ch) (chanClosed ch)]> w).
Proof.
  intros Hrun. unfold ReadFrom in Hrun.
  assert (Hwait : forall timeout,
    (timer_fires timeout = true -> time.IsZero (readDeadline conn) = false) ->
    (sel <- select_recv (readChan conn) timeout pick ;;
     match sel with
     | received (Some msg) =>
         let (q, copiedCount) := copy p (mqtt.Payload msg) in
         ret (q, copiedCount, Some (mkTopicAddr (mqtt.Topic msg)), None)
     | received None => panic
     | timedOut =>
         ret (p, 0, None, Some (mqttError true (errors_New "read timed out")))
     end) w = Ret (p', n, addr, e, w') ->
    (time.IsZero (readDeadline conn) = false /\
     p' = p /\ n = 0 /\ addr = None /\
     e = Some (mqttError true (errors_New "read timed out")) /\ w' = w) \/
    (exists (r : nat) (ch : Chan) (msg : mqtt.Message)
            (rest : list mqtt.Message),
       readChan conn = Some r /\ chans w !! r = Some ch /\
       chanBuf ch = msg :: rest /\
       p' = fst (copy p (mqtt.Payload msg)) /\
       n = snd (copy p (mqtt.Payload msg)) /\
       addr = Some (mkTopicAddr (mqtt.Topic msg)) /\ e = None /\
       w' = set_chans <[r := mkChan rest (chanCap ch) (chanClosed ch)]> w)).
  { intros timeout Hfires Hsel. unfold bind at 1 in Hsel.
    destruct (select_recv (readChan conn) timeout pick w)
      as [[sel w1] | |] eqn:Hs; try discriminate Hsel.
    apply select_recv_returns in Hs
      as [(-> & -> & Hf) | (got & -> & Hrecv)].
    - inversion Hsel; subst. left. repeat split. apply Hfires, Hf.
    - apply chan_recv_returns in Hrecv
        as (r & ch & Hr & Hch &
            [(msg & rest & -> & Hbuf & ->) | (-> & _ & _ & ->)]);
        [| discriminate Hsel].
      destruct (copy p (mqtt.Payload msg)) as [q k] eqn:Hcopy.
      inversion Hsel; subst. right. exists r, ch, msg, rest.
      rewrite Hcopy. repeat split; assumption. }
  destruct (time.IsZero (readDeadline conn)) eqn:Hz.
  - apply (Hwait never); [discriminate | exact Hrun].
  - destruct (time.Sub (readDeadline conn) now <=? 0).
    + inversion Hrun; subst. left. repeat split.
    + apply (Hwait (after (time.Sub (readDeadline conn) now)));
        [reflexivity | exact Hrun].
Qed.

Lemma copy_fits (dst src : list byte) :
  (length src <= length dst)%nat ->
  copy dst src = (src ++ drop (length src) dst, Z.of_nat (length src)).
Proof.
  intros Hfit. unfold copy.
  rewrite (Nat.min_r _ _ Hfit). rewrite firstn_all. reflexivity.
Qed.

Lemma copy_length (dst src : list byte) :
  length (fst (copy dst src)) = length dst.
Proof.
  unfold copy. simpl. rewrite length_app, length_take, length_drop. lia.
Qed.

(** ** Further properties: ReadFrom and Read *)

(** X9.  The only error [ReadFrom] returns is the timeout error with the
    message "read timed out", and only with a read deadline set: the zero
    deadline turns timeouts off. *)
Theorem ReadFrom_error_is_timeout :
  forall (conn : MQTTConn) (p p' : list byte) (now : time.Time)
         (pick : select_case) (w w' : World) (n : Z)
         (addr : option TopicAddr) (e : error),
    ReadFrom conn p now pick w = Ret (p', n, addr, Some e, w') ->
    e = mqttError true (errors_New "read timed out") /\
    Timeout e = true /\
    Error e = "read timed out" /\
    time.IsZero (readDeadline conn) = false.
Proof.
  intros conn p p' now pick w w' n addr e Hrun.
  apply ReadFrom_returns in Hrun
    as [(Hz & _ & _ & _ & He & _) | (r & ch & msg & rest & Hrest)].
  - inversion He; subst. repeat split. exact Hz.
  - destruct Hrest as (_ & _ & _ & _ & _ & _ & He & _). discriminate He.
Qed.

Lemma ReadFrom_error_is_timeout_witness :
  ReadFrom (ex_conn 50 0) (bytes "....") 10 timeoutCase ex_world =
    Ret (bytes "....", 0, None,
         Some (mqttError true (errors_New "read timed out")), ex_world) /\
  Error (mqttError true (errors_New "read timed out")) = "read timed out".
Proof.
  split; [reflexivity |].
  apply (ReadFrom_error_is_timeout (ex_conn 50 0) (bytes "....")
           (bytes "....") 10 timeoutCase ex_world ex_world 0 None
           (mqttError true (errors_New "read timed out"))).
  reflexivity.
Defined.


(** X11.  With a read deadline set and nothing to receive, [ReadFrom] returns
    the timeout error whether the deadline has passed or not, and changes
    nothing. *)
Theorem ReadFrom_nothing_to_receive :
  forall (conn : MQTTConn) (p : list byte) (now : time.Time)
         (pick : select_case) (w : World),
    time.IsZero (readDeadline conn) = false ->
    recv_ready w (readChan conn) = false ->
    ReadFrom conn p now pick w =
      Ret (p, 0, None, Some (mqttError true (errors_New "read timed out")), w).
Proof.
  intros conn p now pick w Hset Hnot. unfold ReadFrom. rewrite Hset.
  destruct (time.Sub (readDeadline conn) now <=? 0); [reflexivity |].
  unfold bind. rewrite (select_recv_not_ready _ _ _ _ Hnot). reflexivity.
Qed.

Lemma ReadFrom_nothing_to_receive_witness :
  time.IsZero (readDeadline (ex_conn 50 0)) = false /\
  recv_ready ex_empty_world (readChan (ex_conn 50 0)) = false /\
  ReadFrom (ex_conn 50 0) (bytes "....") 10 recvCase ex_empty_world =
    Ret (bytes "....", 0, None,
         Some (mqttError true (errors_New "read timed out")), ex_empty_world).
Proof.
  do 2 (split; [reflexivity |]).
  apply (ReadFrom_nothing_to_receive (ex_conn 50 0) (bytes "....") 10 recvCase
           ex_empty_world); reflexivity.
Defined.

(** X12.  [ReadFrom] makes no call on the client and keeps every channel;
    when it returns, either the world is as it was, or the one change is that
    the oldest message left the adapter's own queue. *)
Theorem ReadFrom_frame :
  forall (conn : MQTTConn) (p p' : list byte) (now : time.Time)
         (pick : select_case) (w w' : World) (n : Z)
         (addr : option TopicAddr) (e : option error),
    ReadFrom conn p now pick w = Ret (p', n, addr, e, w') ->
    calls w' = calls w /\
    length (chans w') = length (chans w) /\
    length p' = length p /\
    (w' = w \/
     exists (r : nat) (ch : Chan) (msg : mqtt.Message)
            (rest : list mqtt.Message),
       readChan conn = Some r /\ chans w !! r = Some ch /\
       chanBuf ch = msg :: rest /\
       chans w' = <[r := mkChan rest (chanCap ch) (chanClosed ch)]> (chans w)).
Proof.
  intros conn p p' now pick w w' n addr e Hrun.
  apply ReadFrom_returns in Hrun
    as [(_ & -> & _ & _ & _ & ->) |
        (r & ch & msg & rest & Hr & Hch & Hbuf & -> & _ & _ & _ & ->)].
  - repeat split. left. reflexivity.
  - split; [reflexivity |]. split; [apply length_insert |].
    split; [apply copy_length |].
    right. exists r, ch, msg, rest. repeat split; assumption.
Qed.

Lemma ReadFrom_frame_witness :
  ReadFrom (ex_conn 0 0) (bytes "....") 10 recvCase ex_world =
    Ret (bytes "21.5", 4, Some (mkTopicAddr "sensors/temp"), None,
         mkWorld [mkChan [] 2 false] []) /\
  calls (mkWorld [mkChan [] 2 false] []) = calls ex_world.
Proof.
  split; [reflexivity |].
  apply (ReadFrom_frame (ex_conn 0 0) (bytes "....") (bytes "21.5") 10
           recvCase ex_world (mkWorld [mkChan [] 2 false] []) 4
           (Some (mkTopicAddr "sensors/temp")) None).
  reflexivity.
Defined.

(** X13.  A payload that fits the buffer arrives whole: [ReadFrom] writes it
    at the start of the buffer, leaves the bytes after it as they were, and
    returns its length. *)
Theorem ReadFrom_whole_payload :
  forall (conn : MQTTConn) (p : list byte) (now : time.Time)
         (pick : select_case) (w : World) (r : nat) (ch : Chan)
         (msg : mqtt.Message) (rest : list mqtt.Message),
    readChan conn = Some r ->
    chans w !! r = Some ch ->
    chanBuf ch = msg :: rest ->
    time.IsZero (readDeadline conn) = true \/
      (now < readDeadline conn /\ pick = recvCase) ->
    (length (mqtt.Payload msg) <= length p)%nat ->
    ReadFrom conn p now pick w =
      Ret (mqtt.Payload msg ++ drop (length (mqtt.Payload msg)) p,
           len (mqtt.Payload msg),
           Some (mkTopicAddr (mqtt.Topic msg)), None,
           set_chans <[r := mkChan rest (chanCap ch) (chanClosed ch)]> w).
Proof.
  intros conn p now pick w r ch msg rest Hr Hch Hbuf Hsel Hfit.
  rewrite (ReadFrom_recv conn p now pick w r ch msg rest Hr Hch Hbuf Hsel).
  rewrite (copy_fits p (mqtt.Payload msg) Hfit). reflexivity.
Qed.

Lemma ReadFrom_whole_payload_witness :
  (length (bytes "21.5 C  ") <= length (bytes "............"))%nat /\
  ReadFrom (ex_conn 0 0) (bytes "............") 10 recvCase ex_world =
    Ret (bytes "21.5 C  ....", 8, Some (mkTopicAddr "sensors/temp"), None,
         mkWorld [mkChan [] 2 false] []).
Proof.
  split; [simpl; lia |].
  apply (ReadFrom_whole_payload (ex_conn 0 0) (bytes "............") 10
           recvCase ex_world 0%nat
           (mkChan [mqtt.mkMessage "sensors/temp" (bytes "21.5 C  ")] 2 false)
           (mqtt.mkMessage "sensors/temp" (bytes "21.5 C  ")) []);
    try reflexivity.
  - left; reflexivity.
  - simpl; lia.
Defined.


(** ** Lemmas on what [WriteTo] did *)

(** [WriteTo] once the family check has passed and the client is there. *)
Lemma WriteTo_published {A : Type} `{net_Addr A} (conn : MQTTConn) (c : nat)
    (b : list byte) (addr : A) (now : time.Time) (answer : mqtt.Token)
    (w : World) :
  Network addr = "mqttTopic" ->
  Client conn = Some c ->
  WriteTo conn b addr now answer w =
    let w1 :=
      add_call c
        (mqtt.Publish (String addr) (byte_of_int (defaultQoS conn)) false b)
        w in
    let finish :=
      match mqtt.errorAfterWait answer with
      | Some err => (0, Some err)
      | None => (len b, None)
      end in
    if time.IsZero (writeDeadline conn) then
      if mqtt.completes answer
      then Ret (finish, add_call c mqtt.Wait w1)
      else Block
    else if time.Sub (writeDeadline conn) now <=? 0 then
      Ret (0, Some (mqttError true (errors_New "publish timed out")), w1)
    else
      Ret (finish,
           add_call c (mqtt.WaitTimeout (time.Sub (writeDeadline conn) now))
             w1).
Proof.
  intros Hfam Hc. unfold WriteTo.
  rewrite (family_check_passes addr Hfam), Hc. unfold bind at 1.
  rewrite Client_Publish_logged.
  unfold Token_Wait, Token_WaitTimeout, token_call, Token_Error, bind, ret.
  cbv zeta.
  destruct (time.IsZero (writeDeadline conn));
    [destruct (mqtt.completes answer) |
     destruct (time.Sub (writeDeadline conn) now <=? 0)];
    destruct (mqtt.errorAfterWait answer); reflexivity.
Qed.

(** [WriteTo] on a nil client, the family check passed. *)
Lemma WriteTo_nil_client {A : Type} `{net_Addr A} (conn : MQTTConn)
    (b : list byte) (addr : A) (now : time.Time) (answer : mqtt.Token)
    (w : World) :
  Network addr = "mqttTopic" ->
  Client conn = None ->
  WriteTo conn b addr now answer w = Panic.
Proof.
  intros Hfam Hc. unfold WriteTo.
  rewrite (family_check_passes addr Hfam), Hc. reflexivity.
Qed.

Lemma WriteTo_rejects {A : Type} `{net_Addr A} (conn : MQTTConn)
    (b : list byte) (addr : A) (now : time.Time) (answer : mqtt.Token)
    (w : World) :
  Network addr <> "mqttTopic" ->
  WriteTo conn b addr now answer w =
    Ret (0, Some (errors_New "unexpected net.Addr.Network() value"), w).
Proof.
  intros Hne. unfold WriteTo. rewrite (family_check_fails addr Hne).
  reflexivity.
Qed.

Lemma family_dec {A : Type} `{net_Addr A} (addr : A) :
  Network addr = "mqttTopic" \/ Network addr <> "mqttTopic".
Proof.
  destruct (String.eqb_spec (Network addr) "mqttTopic"); [left | right];
    assumption.
Qed.

(** ** Further properties: WriteTo and Write *)

(** X15.  Whenever [WriteTo] returns an error it reports zero bytes written,
    and the error is one of three: the address-type error, for an address of
    another family, with nothing done; the "publish timed out" timeout
    error, with a write deadline set and reached; or the error of the publish
    token, passed on as it is. *)
Theorem WriteTo_error_cases :
  forall (A : Type) (HA : net_Addr A) (conn : MQTTConn) (b : list byte)
         (addr : A) (now : time.Time) (answer : mqtt.Token) (w w' : World)
         (n : Z) (e : error),
    WriteTo conn b addr now answer w = Ret (n, Some e, w') ->
    n = 0 /\
    ((e = errors_New "unexpected net.Addr.Network() value" /\
      Network addr <> "mqttTopic" /\ w' = w) \/
     (e = mqttError true (errors_New "publish timed out") /\
      Network addr = "mqttTopic" /\
      time.IsZero (writeDeadline conn) = false /\
      writeDeadline conn <= now) \/
     (mqtt.errorAfterWait answer = Some e /\ Network addr = "mqttTopic")).
Proof.
  intros A HA conn b addr now answer w w' n e Hrun.
  destruct (family_dec addr) as [Hfam | Hne].
  - destruct (Client conn) as [c |] eqn:Hc;
      [| rewrite (WriteTo_nil_client conn b addr now answer w Hfam Hc) in Hrun;
         discriminate Hrun].
    rewrite (WriteTo_published conn c b addr now answer w Hfam Hc) in Hrun.
    cbv zeta in Hrun.
    destruct (time.IsZero (writeDeadline conn)) eqn:Hz.
    + destruct (mqtt.completes answer); [| discriminate Hrun].
      destruct (mqtt.errorAfterWait answer) as [err |];
        inversion Hrun; subst.
      split; [reflexivity |]. right. right. split; [reflexivity | exact Hfam].
    + destruct (time.Sub (writeDeadline conn) now <=? 0) eqn:Hsub.
      * inversion Hrun; subst. split; [reflexivity |]. right. left.
        apply Sub_nonpos in Hsub. repeat split; assumption.
      * destruct (mqtt.errorAfterWait answer) as [err |];
          inversion Hrun; subst.
        split; [reflexivity |]. right. right.
        split; [reflexivity | exact Hfam].
  - rewrite (WriteTo_rejects conn b addr now answer w Hne) in Hrun.
    inversion Hrun; subst. split; [reflexivity |]. left. repeat split.
    exact Hne.
Qed.

Lemma WriteTo_error_cases_witness :
  WriteTo (ex_conn 0 0) (bytes "21.5") (mkTopicAddr "other/topic") 10
      ex_token_failed ex_world =
    Ret (0, Some (tokenError "connection refused"),
         mkWorld (chans ex_world)
           [(7%nat, mqtt.Publish "other/topic" 1 false (bytes "21.5"));
            (7%nat, mqtt.Wait)]) /\
  0 = 0.
Proof.
  split; [reflexivity |].
  apply (WriteTo_error_cases TopicAddr TopicAddr_Addr (ex_conn 0 0)
           (bytes "21.5") (mkTopicAddr "other/topic") 10 ex_token_failed
           ex_world
           (mkWorld (chans ex_world)
              [(7%nat, mqtt.Publish "other/topic" 1 false (bytes "21.5"));
               (7%nat, mqtt.Wait)])
           0 (tokenError "connection refused")).
  reflexivity.
Defined.

(** X16.  An error of the publish is passed on unchanged, with zero bytes
    written, whenever [WriteTo] gets to ask the token for it: after the
    unbounded wait of a publish that completes, or after the bounded wait of
    a deadline still ahead. *)
Theorem WriteTo_token_error :
  forall (A : Type) (HA : net_Addr A) (conn : MQTTConn) (c : nat)
         (b : list byte) (addr : A) (now : time.Time) (answer : mqtt.Token)
         (w : World) (e : error),
    Network addr = "mqttTopic" ->
    Client conn = Some c ->
    mqtt.errorAfterWait answer = Some e ->
    (time.IsZero (writeDeadline conn) = true /\ mqtt.completes answer = true)
    \/ (time.IsZero (writeDeadline conn) = false /\ now < writeDeadline conn) ->
    exists w' : World,
      WriteTo conn b addr now answer w = Ret (0, Some e, w').
Proof.
  intros A HA conn c b addr now answer w e Hfam Hc Herr Hwait.
  rewrite (WriteTo_published conn c b addr now answer w Hfam Hc).
  cbv zeta. rewrite Herr.
  destruct Hwait as [[-> ->] | [-> Hlt]].
  - eexists. reflexivity.
  - rewrite (Sub_remaining _ _ Hlt). eexists. reflexivity.
Qed.

Lemma WriteTo_token_error_witness :
  Network (mkTopicAddr "other/topic") = "mqttTopic" /\
  Client (ex_conn 0 100) = Some 7%nat /\
  mqtt.errorAfterWait ex_token_failed =
    Some (tokenError "connection refused") /\
  exists w' : World,
    WriteTo (ex_conn 0 100) (bytes "21.5") (mkTopicAddr "other/topic") 10
      ex_token_failed ex_world =
      Ret (0, Some (tokenError "connection refused"), w').
Proof.
  do 3 (split; [reflexivity |]).
  apply (WriteTo_token_error TopicAddr TopicAddr_Addr (ex_conn 0 100) 7%nat
           (bytes "21.5") (mkTopicAddr "other/topic") 10 ex_token_failed
           ex_world (tokenError "connection refused"));
    try reflexivity.
  right. split; reflexivity.
Defined.


(** X18.  [WriteTo] never touches a channel, and what it adds to the log is
    on the adapter's own client: nothing when the address is rejected,
    otherwise the publish, followed by at most one wait. *)
Theorem WriteTo_frame :
  forall (A : Type) (HA : net_Addr A) (conn : MQTTConn) (b : list byte)
         (addr : A) (now : time.Time) (answer : mqtt.Token) (w w' : World)
         (r : Z * option error),
    WriteTo conn b addr now answer w = Ret (r, w') ->
    chans w' = chans w /\
    (w' = w \/
     exists (c : nat) (waits : list (nat * mqtt.Call)),
       Client conn = Some c /\
       calls w' =
         calls w ++
           (c, mqtt.Publish (String addr) (byte_of_int (defaultQoS conn))
                 false b) :: waits /\
       (waits = [] \/ waits = [(c, mqtt.Wait)] \/
        waits = [(c, mqtt.WaitTimeout
                       (time.Sub (writeDeadline conn) now))])).
Proof.
  intros A HA conn b addr now answer w w' r Hrun.
  destruct (family_dec addr) as [Hfam | Hne].
  - destruct (Client conn) as [c |] eqn:Hc;
      [| rewrite (WriteTo_nil_client conn b addr now answer w Hfam Hc) in Hrun;
         discriminate Hrun].
    rewrite (WriteTo_published conn c b addr now answer w Hfam Hc) in Hrun.
    cbv zeta in Hrun.
    destruct (time.IsZero (writeDeadline conn));
      [destruct (mqtt.completes answer); [| discriminate Hrun] |
       destruct (time.Sub (writeDeadline conn) now <=? 0)];
      inversion Hrun; subst; (split; [reflexivity |]); right;
      exists c; eexists; (split; [reflexivity |]);
      (split; [simpl; try rewrite <- app_assoc; reflexivity |]); auto.
  - rewrite (WriteTo_rejects conn b addr now answer w Hne) in Hrun.
    inversion Hrun; subst. split; [reflexivity | left; reflexivity].
Qed.

Lemma WriteTo_frame_witness :
  WriteTo (ex_conn 0 0) (bytes "21.5") (mkTopicAddr "other/topic") 10
      ex_token_done ex_world =
    Ret (4, None,
         mkWorld (chans ex_world)
           [(7%nat, mqtt.Publish "other/topic" 1 false (bytes "21.5"));
            (7%nat, mqtt.Wait)]) /\
  chans (mkWorld (chans ex_world)
           [(7%nat, mqtt.Publish "other/topic" 1 false (bytes "21.5"));
            (7%nat, mqtt.Wait)]) = chans ex_world.
Proof.
  split; [reflexivity |].
  apply (WriteTo_frame TopicAddr TopicAddr_Addr (ex_conn 0 0) (bytes "21.5")
           (mkTopicAddr "other/topic") 10 ex_token_done ex_world
           (mkWorld (chans ex_world)
              [(7%nat, mqtt.Publish "other/topic" 1 false (bytes "21.5"));
               (7%nat, mqtt.Wait)])
           (4, None)).
  reflexivity.
Defined.

(** X19.  An adapter with a nil client and a nil channel, as the zero value
    [&MQTTConn{}] is, cannot be used: [WriteTo] to a topic address, [Write],
    [Subscribe] and [Close] panic, and a delivery blocks for ever. *)
Theorem nil_adapter_unusable :
  forall (conn : MQTTConn),
    Client conn = None ->
    readChan conn = None ->
    (forall (b : list byte) (addr : TopicAddr) (now : time.Time)
            (answer : mqtt.Token) (w : World),
        WriteTo conn b addr now answer w = Panic) /\
    (forall (p : list byte) (now : time.Time) (answer : mqtt.Token)
            (w : World),
        Write conn p now answer w = Panic) /\
    (forall (topic : string) (qos : Z) (w : World),
        Subscribe conn topic qos w = Panic) /\
    (forall w : World, Close conn w = Panic) /\
    (forall (msg : mqtt.Message) (w : World),
        Subscribe_handler conn msg w = Block).
Proof.
  intros conn Hc Hr. repeat split.
  - intros b addr now answer w.
    apply WriteTo_nil_client; [reflexivity | exact Hc].
  - intros p now answer w. unfold Write.
    apply WriteTo_nil_client; [reflexivity | exact Hc].
  - intros topic qos w. unfold Subscribe, bind, client_call.
    rewrite Hc. reflexivity.
  - intros w. unfold Close, bind, chan_close. rewrite Hr. reflexivity.
  - intros msg w. unfold Subscribe_handler, chan_send. rewrite Hr.
    reflexivity.
Qed.

Lemma nil_adapter_unusable_witness :
  Client zero_MQTTConn = None /\
  readChan zero_MQTTConn = None /\
  Write zero_MQTTConn (bytes "21.5") 10 ex_token_done ex_world = Panic.
Proof.
  do 2 (split; [reflexivity |]).
  apply (nil_adapter_unusable zero_MQTTConn eq_refl eq_refl).
Defined.

(** X20.  [Write] reads the client, the default topic, the default QoS and
    the write deadline, and nothing else: two adapters that agree on these
    write alike.  The flag that tells whether a default topic was set is not
    looked at. *)
Theorem Write_reads_four_fields :
  forall (conn conn' : MQTTConn) (p : list byte) (now : time.Time)
         (answer : mqtt.Token) (w : World),
    Client conn' = Client conn ->
    defaultTopic conn' = defaultTopic conn ->
    defaultQoS conn' = defaultQoS conn ->
    writeDeadline conn' = writeDeadline conn ->
    Write conn' p now answer w = Write conn p now answer w.
Proof.
  intros conn conn' p now answer w Hc Ht Hq Hd.
  unfold Write, WriteTo. rewrite Hc, Ht, Hq, Hd. reflexivity.
Qed.

Lemma Write_reads_four_fields_witness :
  Write ex_fresh_conn (bytes "21.5") 10 ex_token_done ex_world =
    Write (mkMQTTConn (Some 7%nat) true "" 0 99 0 None) (bytes "21.5") 10
      ex_token_done ex_world.
Proof.
  apply (Write_reads_four_fields
           (mkMQTTConn (Some 7%nat) true "" 0 99 0 None) ex_fresh_conn
           (bytes "21.5") 10 ex_token_done ex_world); reflexivity.
Defined.

(** X21.  [Write] on an adapter whose default topic was never set does not
    fail on its own account: right after [CreateMQTTConn] it publishes to the
    empty topic at QoS 0, and returns the payload's length once the publish
    completes without error. *)
Theorem Write_without_default_topic :
  forall (c : nat) (p : list byte) (now : time.Time) (answer : mqtt.Token)
         (w : World),
    mqtt.completes answer = true ->
    mqtt.errorAfterWait answer = None ->
    (r <- CreateMQTTConn (Some c) ;; Write (fst r) p now answer) w =
      Ret (len p, None,
           {| chans := chans w ++ [mkChan [] 2 false];
              calls := calls w ++ [(c, mqtt.Publish "" 0 false p)] ++
                                  [(c, mqtt.Wait)] |}).
Proof.
  intros c p now answer [cs l] Hdone Hok.
  unfold bind. rewrite CreateMQTTConn_last. cbn [fst]. unfold Write.
  set (conn := mkMQTTConn (Some c) false "" 0 0 0 (Some (length cs))).
  rewrite (WriteTo_published conn c p (mkTopicAddr (defaultTopic conn)) now
             answer (mkWorld (cs ++ [mkChan [] 2 false]) l)
             (Network_TopicAddr _) eq_refl).
  cbn. rewrite Hdone, Hok. unfold add_call. simpl.
  rewrite <- app_assoc. reflexivity.
Qed.

Lemma Write_without_default_topic_witness :
  mqtt.completes ex_token_done = true /\
  mqtt.errorAfterWait ex_token_done = None /\
  (r <- CreateMQTTConn (Some 7%nat) ;;
   Write (fst r) (bytes "21.5") 10 ex_token_done) (mkWorld [] []) =
    Ret (4, None,
         mkWorld [mkChan [] 2 false]
           [(7%nat, mqtt.Publish "" 0 false (bytes "21.5"));
            (7%nat, mqtt.Wait)]).
Proof.
  do 2 (split; [reflexivity |]).
  apply (Write_without_default_topic 7%nat (bytes "21.5") 10 ex_token_done
           (mkWorld [] [])); reflexivity.
Defined.

(** X22.  One can answer the sender: an address returned by [ReadFrom] is the
    topic of the message taken, it is of the family of [LocalAddr] and
    [RemoteAddr], and a [WriteTo] to it that returns has published to that
    topic. *)
Theorem reply_to_sender :
  forall (conn : MQTTConn) (p p' : list byte) (now : time.Time)
         (pick : select_case) (w w1 : World) (n : Z) (addr : TopicAddr)
         (e : option error),
    ReadFrom conn p now pick w = Ret (p', n, Some addr, e, w1) ->
    exists (r : nat) (ch : Chan) (msg : mqtt.Message)
           (rest : list mqtt.Message),
      readChan conn = Some r /\ chans w !! r = Some ch /\
      chanBuf ch = msg :: rest /\
      String addr = mqtt.Topic msg /\
      Network addr = Network (LocalAddr conn) /\
      Network addr = Network (RemoteAddr conn) /\
      forall (b : list byte) (now2 : time.Time) (answer : mqtt.Token)
             (w2 w3 : World) (res : Z * option error),
        WriteTo conn b addr now2 answer w2 = Ret (res, w3) ->
        exists (c : nat) (waits : list (nat * mqtt.Call)),
          Client conn = Some c /\
          calls w3 =
            calls w2 ++
              (c, mqtt.Publish (mqtt.Topic msg)
                    (byte_of_int (defaultQoS conn)) false b) :: waits.
Proof.
  intros conn p p' now pick w w1 n addr e Hrun.
  apply ReadFrom_returns in Hrun
    as [(_ & _ & _ & Hno & _) |
        (r & ch & msg & rest & Hr & Hch & Hbuf & _ & _ & Haddr & _ & _)];
    [discriminate Hno |].
  inversion Haddr; subst addr.
  exists r, ch, msg, rest. repeat (split; [assumption || reflexivity |]).
  intros b now2 answer w2 w3 res Hwrite.
  destruct (Client conn) as [c |] eqn:Hc;
    [| rewrite (WriteTo_nil_client conn b _ now2 answer w2
                  (Network_TopicAddr _) Hc) in Hwrite;
       discriminate Hwrite].
  rewrite (WriteTo_published conn c b _ now2 answer w2
             (Network_TopicAddr _) Hc) in Hwrite.
  cbv zeta in Hwrite. exists c.
  destruct (time.IsZero (writeDeadline conn));
    [destruct (mqtt.completes answer); [| discriminate Hwrite] |
     destruct (time.Sub (writeDeadline conn) now2 <=? 0)];
    inversion Hwrite; subst; eexists; (split; [reflexivity |]);
    simpl; try rewrite <- app_assoc; reflexivity.
Qed.

Lemma reply_to_sender_witness :
  ReadFrom (ex_conn 0 0) (bytes "....") 10 recvCase ex_world =
    Ret (bytes "21.5", 4, Some (mkTopicAddr "sensors/temp"), None,
         mkWorld [mkChan [] 2 false] []) /\
  exists (r : nat) (ch : Chan) (msg : mqtt.Message)
         (rest : list mqtt.Message),
    readChan (ex_conn 0 0) = Some r /\ chans ex_world !! r = Some ch /\
    chanBuf ch = msg :: rest /\
    String (mkTopicAddr "sensors/temp") = mqtt.Topic msg.
Proof.
  split; [reflexivity |].
  destruct (reply_to_sender (ex_conn 0 0) (bytes "....") (bytes "21.5") 10
              recvCase ex_world (mkWorld [mkChan [] 2 false] []) 4
              (mkTopicAddr "sensors/temp") None eq_refl)
    as (r & ch & msg & rest & Hr & Hch & Hbuf & Htopic & _).
  exists r, ch, msg, rest. repeat split; assumption.
Defined.

(** X23.  The two configuration setters do what [Write] then shows: after
    [SetDefaultTopic D] and [SetDefaultQoS q], in either order, a [Write]
    that returns has published to [D] at [q mod 256], and [RemoteAddr]
    renders [D]. *)
Theorem Write_after_configuration :
  forall (conn : MQTTConn) (D : string) (q : Z) (p : list byte)
         (now : time.Time) (answer : mqtt.Token) (w w' : World)
         (res : Z * option error),
    Write (SetDefaultQoS (SetDefaultTopic conn D) q) p now answer w =
      Ret (res, w') ->
    SetDefaultQoS (SetDefaultTopic conn D) q =
      SetDefaultTopic (SetDefaultQoS conn q) D /\
    String (RemoteAddr (SetDefaultQoS (SetDefaultTopic conn D) q)) = D /\
    exists (c : nat) (waits : list (nat * mqtt.Call)),
      Client conn = Some c /\
      calls w' = calls w ++ (c, mqtt.Publish D (q mod 256) false p) :: waits.
Proof.
  intros conn D q p now answer w w' res Hrun.
  split; [reflexivity |]. split; [reflexivity |].
  unfold Write in Hrun.
  set (conn' := SetDefaultQoS (SetDefaultTopic conn D) q) in *.
  destruct (Client conn) as [c |] eqn:Hc.
  - rewrite (WriteTo_published conn' c p _ now answer w
               (Network_TopicAddr _) Hc) in Hrun.
    cbv zeta in Hrun. exists c.
    destruct (time.IsZero (writeDeadline conn'));
      [destruct (mqtt.completes answer); [| discriminate Hrun] |
       destruct (time.Sub (writeDeadline conn') now <=? 0)];
      inversion Hrun; subst; eexists; (split; [reflexivity |]);
      simpl; try rewrite <- app_assoc; reflexivity.
  - rewrite (WriteTo_nil_client conn' p _ now answer w
               (Network_TopicAddr _) Hc) in Hrun.
    discriminate Hrun.
Qed.

Lemma Write_after_configuration_witness :
  Write (SetDefaultQoS (SetDefaultTopic ex_fresh_conn "sensors/temp") 2)
      (bytes "21.5") 10 ex_token_done ex_empty_world =
    Ret (4, None,
         mkWorld [mkChan [] 2 false]
           [(7%nat, mqtt.Publish "sensors/temp" 2 false (bytes "21.5"));
            (7%nat, mqtt.Wait)]) /\
  String (RemoteAddr
            (SetDefaultQoS (SetDefaultTopic ex_fresh_conn "sensors/temp") 2)) =
    "sensors/temp".
Proof.
  split; [reflexivity |].
  apply (Write_after_configuration ex_fresh_conn "sensors/temp" 2
           (bytes "21.5") 10 ex_token_done ex_empty_world
           (mkWorld [mkChan [] 2 false]
              [(7%nat, mqtt.Publish "sensors/temp" 2 false (bytes "21.5"));
               (7%nat, mqtt.Wait)])
           (4, None)).
  reflexivity.
Defined.

(** X24.  The QoS is passed to the client as a byte, so only its value modulo
    256 counts: default levels that differ by a multiple of 256 make
    [WriteTo] behave alike, and so do the levels given to [Subscribe]; in
    particular 256 stands for 0. *)
Theorem qos_modulo_256 :
  forall (A : Type) (HA : net_Addr A) (conn : MQTTConn) (q k : Z)
         (b : list byte) (addr : A) (now : time.Time) (answer : mqtt.Token)
         (topic : string) (w : World),
    WriteTo (SetDefaultQoS conn (q + 256 * k)) b addr now answer w =
      WriteTo (SetDefaultQoS conn q) b addr now answer w /\
    Subscribe conn topic (q + 256 * k) w = Subscribe conn topic q w /\
    byte_of_int 256 = 0.
Proof.
  intros A HA conn q k b addr now answer topic w.
  assert (Hmod : byte_of_int (q + 256 * k) = byte_of_int q).
  { unfold byte_of_int. rewrite (Z.mul_comm 256 k). apply Z.mod_add. lia. }
  split; [| split; [| reflexivity]].
  - unfold WriteTo. simpl. rewrite Hmod. reflexivity.
  - unfold Subscribe. rewrite Hmod. reflexivity.
Qed.

(** ** Lemmas on what every call keeps *)

Lemma world_extends_refl (w : World) : world_extends w w.
Proof.
  split; [| split].
  - split; [lia |]. intros r c Hc. exists c. repeat split; auto.
  - exists []. symmetry. apply app_nil_r.
  - auto.
Qed.

Lemma world_extends_trans (w1 w2 w3 : World) :
  world_extends w1 w2 -> world_extends w2 w3 -> world_extends w1 w3.
Proof.
  intros ((Hlen1 & Hch1) & (l1 & Hl1) & Hb1) ((Hlen2 & Hch2) & (l2 & Hl2) & Hb2).
  split; [| split].
  - split; [lia |]. intros r c Hc.
    destruct (Hch1 r c Hc) as (c' & Hc' & Hcap' & Hcl').
    destruct (Hch2 r c' Hc') as (c'' & Hc'' & Hcap'' & Hcl'').
    exists c''. split; [exact Hc'' |]. split; [congruence | auto].
  - exists (l1 ++ l2). rewrite Hl2, Hl1. symmetry. apply app_assoc.
  - auto.
Qed.

Lemma world_extends_add_call (c : nat) (call : mqtt.Call) (w : World) :
  world_extends w (add_call c call w).
Proof.
  split; [| split].
  - split; [simpl; lia |]. intros r ch Hch. exists ch. repeat split; auto.
  - exists [(c, call)]. reflexivity.
  - auto.
Qed.

Lemma world_extends_update (w : World) (r : nat) (c c' : Chan) :
  chans w !! r = Some c ->
  chanCap c' = chanCap c ->
  (chanClosed c = true -> chanClosed c' = true) ->
  (length (chanBuf c') <= Nat.max (length (chanBuf c)) (chanCap c))%nat ->
  world_extends w (set_chans <[r := c']> w).
Proof.
  intros Hc Hcap Hclosed Hlen. split; [| split].
  - split; [simpl; rewrite length_insert; lia |].
    intros r0 c0 Hc0. simpl.
    destruct (decide (r0 = r)) as [-> | Hne].
    + exists c'. assert (c0 = c) by congruence. subst c0.
      split; [| split; assumption].
      apply list_lookup_insert_eq. apply lookup_lt_Some in Hc. exact Hc.
    + exists c0. split; [| split; auto].
      rewrite list_lookup_insert_ne by congruence. exact Hc0.
  - exists []. simpl. symmetry. apply app_nil_r.
  - unfold queues_bounded. intros Hb. simpl. apply Forall_insert; [exact Hb |].
    rewrite Forall_lookup in Hb. destruct (Hb r c Hc) as [Hc2 Hl2].
    split; [congruence | lia].
Qed.

Lemma world_extends_new_chan (w : World) :
  world_extends w (set_chans (fun cs => cs ++ [mkChan [] 2 false]) w).
Proof.
  split; [| split].
  - split; [simpl; rewrite length_app; simpl; lia |].
    intros r c Hc. exists c. split; [| auto].
    simpl. apply lookup_app_l_Some. exact Hc.
  - exists []. simpl. symmetry. apply app_nil_r.
  - unfold queues_bounded. intros Hb. simpl. apply Forall_app.
    split; [exact Hb |]. constructor; [| constructor].
    simpl. split; [reflexivity | lia].
Qed.

Lemma chan_send_returns (ch : option nat) (msg : mqtt.Message) (w w' : World)
    (u : unit) :
  chan_send ch msg w = Ret (u, w') ->
  exists (r : nat) (c : Chan),
    ch = Some r /\ chans w !! r = Some c /\ chanClosed c = false /\
    (length (chanBuf c) < chanCap c)%nat /\
    w' = set_chans <[r := mkChan (chanBuf c ++ [msg]) (chanCap c) false]> w.
Proof.
  unfold chan_send, chan_at. intros Hrun.
  destruct ch as [r |]; [| discriminate Hrun].
  destruct (chans w !! r) as [c |] eqn:Hc; [| discriminate Hrun].
  destruct (chanClosed c) eqn:Hopen; [discriminate Hrun |].
  destruct (length (chanBuf c) <? chanCap c)%nat eqn:Hroom;
    [| discriminate Hrun].
  inversion Hrun. exists r, c. apply Nat.ltb_lt in Hroom.
  repeat split; assumption.
Qed.

Lemma CreateMQTTConn_extends (mqttClient : option nat) (w w' : World)
    (r : MQTTConn * option error) :
  CreateMQTTConn mqttClient w = Ret (r, w') -> world_extends w w'.
Proof.
  unfold CreateMQTTConn, bind, make_chan, ret. intros Hrun.
  inversion Hrun. apply world_extends_new_chan.
Qed.

Lemma Subscribe_extends (conn : MQTTConn) (topic : string) (qos : Z)
    (w w' : World) (e : option error) :
  Subscribe conn topic qos w = Ret (e, w') -> world_extends w w'.
Proof.
  unfold Subscribe, bind. intros Hrun.
  destruct (client_call (Client conn)
              (mqtt.Subscribe topic (byte_of_int qos) (readChan conn)) w)
    as [[u w1] | |] eqn:Hcall; try discriminate Hrun.
  apply client_call_returns in Hcall as (c & _ & ->).
  inversion Hrun. apply world_extends_add_call.
Qed.

Lemma Subscribe_handler_extends (conn : MQTTConn) (msg : mqtt.Message)
    (w w' : World) (u : unit) :
  Subscribe_handler conn msg w = Ret (u, w') -> world_extends w w'.
Proof.
  unfold Subscribe_handler. intros Hrun.
  apply chan_send_returns in Hrun as (r & c & _ & Hc & Hopen & Hroom & ->).
  apply (world_extends_update w r c _ Hc); simpl.
  - reflexivity.
  - rewrite Hopen. discriminate.
  - rewrite length_app. simpl. lia.
Qed.

Lemma WriteTo_extends {A : Type} `{net_Addr A} (conn : MQTTConn)
    (b : list byte) (addr : A) (now : time.Time) (answer : mqtt.Token)
    (w w' : World) (r : Z * option error) :
  WriteTo conn b addr now answer w = Ret (r, w') -> world_extends w w'.
Proof.
  intros Hrun. destruct (family_dec addr) as [Hfam | Hne].
  - destruct (Client conn) as [c |] eqn:Hc;
      [| rewrite (WriteTo_nil_client conn b addr now answer w Hfam Hc) in Hrun;
         discriminate Hrun].
    rewrite (WriteTo_published conn c b addr now answer w Hfam Hc) in Hrun.
    cbv zeta in Hrun.
    destruct (time.IsZero (writeDeadline conn));
      [destruct (mqtt.completes answer); [| discriminate Hrun] |
       destruct (time.Sub (writeDeadline conn) now <=? 0)];
      inversion Hrun; subst;
      repeat (apply world_extends_add_call ||
              (eapply world_extends_trans; [| apply world_extends_add_call])).
  - rewrite (WriteTo_rejects conn b addr now answer w Hne) in Hrun.
    inversion Hrun. apply world_extends_refl.
Qed.

Lemma ReadFrom_extends (conn : MQTTConn) (p : list byte) (now : time.Time)
    (pick : select_case) (w w' : World)
    (r : list byte * Z * option TopicAddr * option error) :
  ReadFrom conn p now pick w = Ret (r, w') -> world_extends w w'.
Proof.
  destruct r as [[[p' n] addr] e]. intros Hrun.
  apply ReadFrom_returns in Hrun
    as [(_ & _ & _ & _ & _ & ->) |
        (r & ch & msg & rest & _ & Hch & Hbuf & _ & _ & _ & _ & ->)].
  - apply world_extends_refl.
  - apply (world_extends_update w r ch _ Hch); simpl; auto.
    rewrite Hbuf. simpl. lia.
Qed.

Lemma Close_extends (conn : MQTTConn) (w w' : World) (e : option error) :
  Close conn w = Ret (e, w') -> world_extends w w'.
Proof.
  intros Hrun.
  apply Close_returns in Hrun as (_ & c & r & ch & _ & _ & Hch & _ & ->).
  eapply world_extends_trans; [| apply world_extends_add_call].
  apply (world_extends_update w r ch _ Hch); simpl; auto. lia.
Qed.

(** ** Lemmas on [DialMQTT] *)

Lemma substring_whole (s : string) :
  String.substring 0 (String.length s) s = s.
Proof.
  induction s as [| a s IH]; [reflexivity |]. simpl. rewrite IH. reflexivity.
Qed.

(** One leading slash is dropped. *)
Lemma TrimPrefix_slash (s : string) :
  TrimPrefix (String.append "/" s) "/" = s.
Proof.
  unfold TrimPrefix. simpl. rewrite Nat.sub_0_r.
  destruct s as [| a s]; [reflexivity |]. apply substring_whole.
Qed.

(** [DialMQTT] once the URI is parsed and the identifier drawn. *)
Lemma DialMQTT_dialled (parsedURL : url.URL) (id : string)
    (NewClient : list ClientOption -> nat) (connect : mqtt.Token)
    (w : World) :
  DialMQTT (inl parsedURL) (inl id) NewClient connect w =
    let c := NewClient (DialMQTT_opts parsedURL id) in
    let conn :=
      {| Client := Some c;
         defaultTopicSet := false;
         defaultTopic := "";
         defaultQoS := 0;
         readDeadline := 0;
         writeDeadline := 0;
         readChan := Some (length (chans w)) |} in
    let w1 := add_call c mqtt.Wait w in
    let w2 := set_chans (fun cs => cs ++ [mkChan [] 2 false]) w1 in
    let defaultTopic := TrimPrefix (url.Path parsedURL) "/" in
    if mqtt.completes connect then
      match mqtt.errorAfterWait connect with
      | Some err => Ret (None, Some err, w1)
      | None =>
          if String.eqb (url.Path parsedURL) "" then Ret (Some conn, None, w2)
          else
            Ret (Some (SetDefaultTopic conn defaultTopic), None,
                 add_call c
                   (mqtt.Subscribe defaultTopic 0 (Some (length (chans w))))
                   w2)
      end
    else Block.
Proof.
  unfold DialMQTT, Token_Wait, token_call, Token_Error, bind, ret.
  cbv zeta.
  destruct (mqtt.completes connect); [| reflexivity].
  destruct (mqtt.errorAfterWait connect); [reflexivity |].
  simpl. destruct (String.eqb (url.Path parsedURL) ""); reflexivity.
Qed.

Lemma DialMQTT_extends (parsed : url.URL + error) (id : string + error)
    (NewClient : list ClientOption -> nat) (connect : mqtt.Token)
    (w w' : World) (r : option MQTTConn * option error) :
  DialMQTT parsed id NewClient connect w = Ret (r, w') -> world_extends w w'.
Proof.
  destruct parsed as [parsedURL | err];
    [| intros Hrun; inversion Hrun; apply world_extends_refl].
  destruct id as [id | err];
    [| intros Hrun; inversion Hrun; apply world_extends_refl].
  rewrite DialMQTT_dialled. cbv zeta.
  destruct (mqtt.completes connect); [| discriminate].
  destruct (mqtt.errorAfterWait connect);
    [intros Hrun; inversion Hrun; apply world_extends_add_call |].
  destruct (String.eqb (url.Path parsedURL) "");
    intros Hrun; inversion Hrun.
  - eapply world_extends_trans;
      [apply world_extends_add_call | apply world_extends_new_chan].
  - eapply world_extends_trans; [| apply world_extends_add_call].
    eapply world_extends_trans;
      [apply world_extends_add_call | apply world_extends_new_chan].
Qed.

Lemma step_extends (w w' : World) : step w w' -> world_extends w w'.
Proof.
  intros Hstep. destruct Hstep as
    [parsed id NewClient connect r w w' Hrun
    | mqttClient r w w' Hrun
    | conn topic qos r w w' Hrun
    | conn msg r w w' Hrun
    | A HA conn b addr now answer r w w' Hrun
    | conn p now answer r w w' Hrun
    | conn p now pick r w w' Hrun
    | conn p now pick r w w' Hrun
    | conn r w w' Hrun].
  - exact (DialMQTT_extends _ _ _ _ _ _ _ Hrun).
  - exact (CreateMQTTConn_extends _ _ _ _ Hrun).
  - exact (Subscribe_extends _ _ _ _ _ _ Hrun).
  - exact (Subscribe_handler_extends _ _ _ _ _ Hrun).
  - exact (WriteTo_extends _ _ _ _ _ _ _ _ Hrun).
  - unfold Write in Hrun. exact (WriteTo_extends _ _ _ _ _ _ _ _ Hrun).
  - exact (ReadFrom_extends _ _ _ _ _ _ _ Hrun).
  - unfold Read, bind in Hrun.
    destruct (ReadFrom conn p now pick w) as [[[[[p' n] addr] e] w1] | |]
      eqn:Hread; try discriminate Hrun.
    inversion Hrun; subst.
    exact (ReadFrom_extends _ _ _ _ _ _ _ Hread).
  - exact (Close_extends _ _ _ _ Hrun).
Qed.

Lemma steps_extend (w w' : World) : rtc step w w' -> world_extends w w'.
Proof.
  induction 1 as [w | w1 w2 w3 Hstep _ IH].
  - apply world_extends_refl.
  - eapply world_extends_trans; [apply (step_extends _ _ Hstep) | exact IH].
Qed.

(** ** Further properties: invariants of a run, DialMQTT *)

(** X25.  In every world a program can reach from the start through the
    exported functions and the subscription handlers, each channel has
    capacity 2 and holds at most 2 messages. *)
Theorem reachable_queues_bounded :
  forall w : World, reachable w -> queues_bounded w.
Proof.
  intros w Hreach. apply steps_extend in Hreach as (_ & _ & Hb).
  apply Hb. constructor.
Qed.

Lemma reachable_queues_bounded_witness :
  reachable ex_empty_world /\ queues_bounded ex_empty_world.
Proof.
  assert (Hreach : reachable ex_empty_world).
  { apply rtc_once.
    apply (step_CreateMQTTConn (Some 7%nat) (ex_fresh_conn, None)
             (mkWorld [] []) ex_empty_world).
    reflexivity. }
  split; [exact Hreach |].
  apply (reachable_queues_bounded ex_empty_world Hreach).
Defined.



(** X27.  [DialMQTT] returns either an error and no adapter, or an adapter
    and no error.  With an error no queue was allocated and nothing was
    subscribed: the error is that of the parse or of the identifier, with the
    world untouched, or that of the connect token, after the wait on it.
    With an adapter, it is on the client built from the options, and its
    queue is a new channel, empty, open, of capacity 2. *)
Theorem DialMQTT_error_or_adapter :
  forall (parsed : url.URL + error) (id : string + error)
         (NewClient : list ClientOption -> nat) (connect : mqtt.Token)
         (w w' : World) (conn : option MQTTConn) (e : option error),
    DialMQTT parsed id NewClient connect w = Ret (conn, e, w') ->
    match e with
    | Some err =>
        conn = None /\ chans w' = chans w /\
        ((w' = w /\ (parsed = inr err \/ id = inr err)) \/
         (mqtt.errorAfterWait connect = Some err /\
          exists c : nat, calls w' = calls w ++ [(c, mqtt.Wait)]))
    | None =>
        exists (adapter : MQTTConn) (parsedURL : url.URL) (i : string),
          conn = Some adapter /\ parsed = inl parsedURL /\ id = inl i /\
          Client adapter = Some (NewClient (DialMQTT_opts parsedURL i)) /\
          readChan adapter = Some (length (chans w)) /\
          chans w' = chans w ++ [mkChan [] 2 false]
    end.
Proof.
  intros parsed id NewClient connect w w' conn e.
  destruct parsed as [parsedURL | err].
  2: { intros Hrun. inversion Hrun; subst.
       split; [reflexivity |]. split; [reflexivity |]. left. auto. }
  destruct id as [i | err].
  2: { intros Hrun. inversion Hrun; subst.
       split; [reflexivity |]. split; [reflexivity |]. left. auto. }
  rewrite DialMQTT_dialled. cbv zeta.
  destruct (mqtt.completes connect); [| discriminate].
  destruct (mqtt.errorAfterWait connect) as [err |] eqn:Herr.
  - intros Hrun. inversion Hrun; subst.
    split; [reflexivity |]. split; [reflexivity |]. right.
    split; [reflexivity |]. eexists. reflexivity.
  - destruct (String.eqb (url.Path parsedURL) "");
      intros Hrun; inversion Hrun; subst;
      eexists; exists parsedURL, i; repeat split.
Qed.

Lemma DialMQTT_error_or_adapter_witness :
  DialMQTT (inl ex_url) (inl "id-1") (fun _ => 3%nat) ex_token_failed
      (mkWorld [] []) =
    Ret (None, Some (tokenError "connection refused"),
         mkWorld [] [(3%nat, mqtt.Wait)]) /\
  @None MQTTConn = None.
Proof.
  split; [reflexivity |].
  apply (DialMQTT_error_or_adapter (inl ex_url) (inl "id-1") (fun _ => 3%nat)
           ex_token_failed (mkWorld [] []) (mkWorld [] [(3%nat, mqtt.Wait)])
           None (Some (tokenError "connection refused")) eq_refl).
Defined.

(** X28.  When the connect completes without error, [DialMQTT] returns an
    adapter with QoS 0 and no deadline.  If the URI's path is a slash followed
    by [T], the adapter is subscribed to [T] at QoS 0, with its own queue as
    the handler's target, and [T] is its default topic; if the path is empty,
    nothing is subscribed and no default topic is set. *)
Theorem DialMQTT_connected :
  forall (parsedURL : url.URL) (i : string)
         (NewClient : list ClientOption -> nat) (connect : mqtt.Token)
         (w : World) (T : string),
    mqtt.completes connect = true ->
    mqtt.errorAfterWait connect = None ->
    let c := NewClient (DialMQTT_opts parsedURL i) in
    (url.Path parsedURL = String.append "/" T ->
     DialMQTT (inl parsedURL) (inl i) NewClient connect w =
       Ret (Some {| Client := Some c;
                    defaultTopicSet := true;
                    defaultTopic := T;
                    defaultQoS := 0;
                    readDeadline := 0;
                    writeDeadline := 0;
                    readChan := Some (length (chans w)) |}, None,
            {| chans := chans w ++ [mkChan [] 2 false];
               calls := calls w ++
                 [(c, mqtt.Wait);
                  (c, mqtt.Subscribe T 0 (Some (length (chans w))))] |})) /\
    (url.Path parsedURL = "" ->
     DialMQTT (inl parsedURL) (inl i) NewClient connect w =
       Ret (Some {| Client := Some c;
                    defaultTopicSet := false;
                    defaultTopic := "";
                    defaultQoS := 0;
                    readDeadline := 0;
                    writeDeadline := 0;
                    readChan := Some (length (chans w)) |}, None,
            {| chans := chans w ++ [mkChan [] 2 false];
               calls := calls w ++ [(c, mqtt.Wait)] |})).
Proof.
  intros parsedURL i NewClient connect w T Hdone Hok c.
  rewrite DialMQTT_dialled. cbv zeta. rewrite Hdone, Hok.
  split; intros Hpath; rewrite Hpath.
  - rewrite TrimPrefix_slash. simpl.
    unfold SetDefaultTopic, add_call, set_chans. simpl.
    rewrite <- app_assoc. reflexivity.
  - reflexivity.
Qed.

Lemma DialMQTT_connected_witness :
  mqtt.completes ex_token_done = true /\
  mqtt.errorAfterWait ex_token_done = None /\
  url.Path ex_url = String.append "/" "sensors/temp" /\
  DialMQTT (inl ex_url) (inl "id-1") (fun _ => 3%nat) ex_token_done
      (mkWorld [] []) =
    Ret (Some (mkMQTTConn (Some 3%nat) true "sensors/temp" 0 0 0 (Some 0%nat)),
         None,
         mkWorld [mkChan [] 2 false]
           [(3%nat, mqtt.Wait);
            (3%nat, mqtt.Subscribe "sensors/temp" 0 (Some 0%nat))]).
Proof.
  do 3 (split; [reflexivity |]).
  apply (DialMQTT_connected ex_url "id-1" (fun _ => 3%nat) ex_token_done
           (mkWorld [] []) "sensors/temp" eq_refl eq_refl).
  reflexivity.
Defined.

(** X29.  The test of the repository passes whenever the broker echoes: after
    a [DialMQTT] on a URI with path slash [T] whose connect succeeds, a
    [Write] of the expected bytes whose publish completes, and the delivery
    of those bytes on topic [T], [ReadFrom] with a buffer that is long enough
    returns no error, an address that renders [T], and the expected bytes at
    the start of the buffer.  The write went to the topic subscribed to. *)
Theorem TestBasic_passes :
  forall (parsedURL : url.URL) (i : string)
         (NewClient : list ClientOption -> nat) (connect answer : mqtt.Token)
         (expectedRead readBuf : list byte) (now1 now2 : time.Time)
         (pick : select_case) (w : World) (T : string),
    mqtt.completes connect = true ->
    mqtt.errorAfterWait connect = None ->
    mqtt.completes answer = true ->
    url.Path parsedURL = String.append "/" T ->
    (length expectedRead <= length readBuf)%nat ->
    let c := NewClient (DialMQTT_opts parsedURL i) in
    TestBasic parsedURL i NewClient connect answer expectedRead readBuf
        now1 now2 pick w =
      Ret (expectedRead ++ drop (length expectedRead) readBuf,
           len expectedRead, Some (mkTopicAddr T), None,
           {| chans := chans w ++ [mkChan [] 2 false];
              calls := calls w ++
                [(c, mqtt.Wait);
                 (c, mqtt.Subscribe T 0 (Some (length (chans w))));
                 (c, mqtt.Publish T 0 false expectedRead);
                 (c, mqtt.Wait)] |}).
Proof.
  intros parsedURL i NewClient connect answer expectedRead readBuf now1 now2
    pick [cs l] T Hdone Hok Hpub Hpath Hfit c.
  unfold TestBasic. unfold bind at 1.
  rewrite DialMQTT_dialled. cbv zeta. rewrite Hdone, Hok, Hpath.
  rewrite TrimPrefix_slash. simpl String.eqb. cbv iota.
  fold c. unfold SetDefaultTopic, add_call, set_chans. simpl.
  set (conn := mkMQTTConn (Some c) true T 0 0 0 (Some (length cs))).
  unfold bind at 1. unfold Write.
  rewrite (WriteTo_published conn c expectedRead
             (mkTopicAddr (defaultTopic conn)) now1 answer _
             (Network_TopicAddr _) eq_refl).
  cbv zeta. simpl time.IsZero. cbv iota. rewrite Hpub.
  unfold add_call. simpl.
  unfold bind at 1.
  rewrite (handler_on_last conn cs _ [] 2
             (mqtt.mkMessage T expectedRead) eq_refl) by (simpl; lia).
  change ([] ++ [mqtt.mkMessage T expectedRead])
    with [mqtt.mkMessage T expectedRead].
  rewrite (ReadFrom_on_last conn cs _ (mqtt.mkMessage T expectedRead) [] 2
             false readBuf now2 pick eq_refl eq_refl).
  simpl mqtt.Payload. rewrite (copy_fits readBuf expectedRead Hfit).
  simpl. repeat rewrite <- app_assoc. reflexivity.
Qed.

Lemma TestBasic_passes_witness :
  mqtt.completes ex_token_done = true /\
  url.Path ex_url = String.append "/" "sensors/temp" /\
  TestBasic ex_url "id-1" (fun _ => 3%nat) ex_token_done ex_token_done
      (bytes "mqttconn test") (bytes "................") 10 20 recvCase
      (mkWorld [] []) =
    Ret (bytes "mqttconn test...", 13, Some (mkTopicAddr "sensors/temp"),
         None,
         mkWorld [mkChan [] 2 false]
           [(3%nat, mqtt.Wait);
            (3%nat, mqtt.Subscribe "sensors/temp" 0 (Some 0%nat));
            (3%nat, mqtt.Publish "sensors/temp" 0 false
                      (bytes "mqttconn test"));
            (3%nat, mqtt.Wait)]).
Proof.
  do 2 (split; [reflexivity |]).
  apply (TestBasic_passes ex_url "id-1" (fun _ => 3%nat) ex_token_done
           ex_token_done (bytes "mqttconn test") (bytes "................")
           10 20 recvCase (mkWorld [] []) "sensors/temp"
           eq_refl eq_refl eq_refl eq_refl).
  simpl. lia.
Defined.

(** X30.  The broker URI and the options.  The transport is "ssl" for the
    scheme "mqtts" and "tcp" for every other scheme; the URL's [Host] field
    is followed by a colon and [Port()] when that is not empty, by ":1883"
    when it is empty and the scheme is "mqtt", and by nothing otherwise.  The options start
    with that broker and the client identifier; a user name is set exactly
    when the URL has user information, a password exactly when that holds
    one. *)
Theorem DialMQTT_broker_and_options :
  forall (parsedURL : url.URL) (id : string),
    let suffix :=
      if String.eqb (url.Port parsedURL) "" then
        if String.eqb (url.Scheme parsedURL) "mqtt" then ":1883" else ""
      else String.append ":" (url.Port parsedURL) in
    let transport :=
      if String.eqb (url.Scheme parsedURL) "mqtts" then "ssl" else "tcp" in
    DialMQTT_mqttURI parsedURL =
      String.append transport
        (String.append "://" (String.append (url.Host parsedURL) suffix)) /\
    take 2 (DialMQTT_opts parsedURL id) =
      [AddBroker (DialMQTT_mqttURI parsedURL); SetClientID id] /\
    (forall u : string,
        In (SetUsername u) (DialMQTT_opts parsedURL id) <->
        exists user, url.User parsedURL = Some user /\ url.Username user = u) /\
    (forall p : string,
        In (SetPassword p) (DialMQTT_opts parsedURL id) <->
        exists user,
          url.User parsedURL = Some user /\ url.Password user = Some p).
Proof.
  intros parsedURL id suffix transport. subst suffix transport.
  split; [| split; [reflexivity | split]].
  - unfold DialMQTT_mqttURI. cbv zeta.
    destruct (String.eqb_spec (url.Scheme parsedURL) "mqtt") as [Hs | Hs].
    + rewrite Hs. simpl.
      destruct (String.eqb (url.Port parsedURL) ""); reflexivity.
    + destruct (String.eqb (url.Scheme parsedURL) "mqtts"); simpl;
        destruct (String.eqb (url.Port parsedURL) ""); reflexivity.
  - intros u. unfold DialMQTT_opts.
    destruct (url.User parsedURL) as [user |]; simpl.
    + split.
      * intros [H | [H | [H | H]]]; try discriminate H.
        -- inversion H. exists user. split; reflexivity.
        -- destruct (url.Password user); simpl in H;
             [destruct H as [H | []]; discriminate H | destruct H].
      * intros (user' & Huser & <-). inversion Huser. auto.
    + split.
      * intros [H | [H | []]]; discriminate H.
      * intros (user' & Huser & _). discriminate Huser.
  - intros p. unfold DialMQTT_opts.
    destruct (url.User parsedURL) as [user |]; simpl.
    + split.
      * intros [H | [H | [H | H]]]; try discriminate H.
        destruct (url.Password user) as [pw |] eqn:Hpw; simpl in H;
          [destruct H as [H | []]; inversion H | destruct H].
        exists user. split; [reflexivity | congruence].
      * intros (user' & Huser & Hpw). inversion Huser; subst user'.
        rewrite Hpw. simpl. auto.
    + split.
      * intros [H | [H | []]]; discriminate H.
      * intros (user' & Huser & _). discriminate Huser.
Qed.
